(** * SiteScraper: SEO scoring, deduplication and template lookup

  A shallow embedding of the decision logic of the content pipeline:

  - [rewriter/seo.py]       : [SEOValidator.validate]
  - [pipeline/processor.py] : [_is_duplicate], [PipelineProcessor.deduplicate]
  - [rewriter/templates.py] : [get_template]

  Python values are modelled as follows.  A [str] is a [string] whose
  characters are code points below 256; an [int] is a [Z]; a [float] is an
  IEEE 754 binary64 number, given by [spec_float] at precision 53 and
  maximal exponent 1024; a [dict] with string keys is a [gmap string _];
  a raised exception is the [Raise] branch of [result]. *)

From Stdlib Require Import ZArith Lia Bool List String Ascii.
From Stdlib Require Import Floats.SpecFloat DecimalString.
From stdpp Require Import base option list strings gmap.

Local Open Scope string_scope.
Local Open Scope Z_scope.

(** ** Python primitives *)

Module Py.

(** *** Exceptions *)

Inductive exn : Type :=
| ZeroDivisionError (msg : string)
| OverflowError (msg : string)
| ValueError (msg : string)
| KeyError (key : string).

Inductive result (A : Type) : Type :=
| Ok (a : A)
| Raise (e : exn).
Arguments Ok {A} a.
Arguments Raise {A} e.

Definition bind {A B : Type} (r : result A) (k : A -> result B) : result B :=
  match r with
  | Ok a => k a
  | Raise e => Raise e
  end.

#[global] Instance result_ret : MRet result := fun A a => Ok a.
#[global] Instance result_bind : MBind result :=
  fun A B k r => bind r k.

Definition returns {A : Type} (r : result A) : Prop := exists a, r = Ok a.

(** *** Strings *)

(** [len(s)] *)
Definition len (s : string) : Z := Z.of_nat (String.length s).

(** [str(n)] and the [{n}] field of an f-string, for an [int]. *)
Definition str_of_int (n : Z) : string :=
  NilZero.string_of_int (Z.to_int n).

(** [c.lower()] on one code point below 256: the letters A-Z and the
    Latin-1 capitals 192-222, the multiplication sign 215 apart, move up
    by 32; every other code point is unchanged. *)
Definition lower_char (c : ascii) : ascii :=
  let n := N_of_ascii c in
  if ((65 <=? n) && (n <=? 90))%N
     || ((192 <=? n) && (n <=? 222) && negb (n =? 215))%N
  then ascii_of_N (n + 32)
  else c.

(** [s.lower()] *)
Fixpoint lower (s : string) : string :=
  match s with
  | EmptyString => EmptyString
  | String c rest => String (lower_char c) (lower rest)
  end.

(** [c.isspace()] on one code point below 256. *)
Definition isspace (c : ascii) : bool :=
  let n := N_of_ascii c in
  (((9 <=? n) && (n <=? 13)) || ((28 <=? n) && (n <=? 32))
   || (n =? 133) || (n =? 160))%N.

(** [len(s.split())]: the number of maximal runs of non-space characters.
    [in_word] tells whether the previous character belongs to a word. *)
Fixpoint count_words_from (in_word : bool) (s : string) : Z :=
  match s with
  | EmptyString => 0
  | String c rest =>
      if isspace c then count_words_from false rest
      else (if in_word then 0 else 1) + count_words_from true rest
  end.

Definition split_len (s : string) : Z := count_words_from false s.

(** [s.startswith(p)] *)
Fixpoint startswith (p s : string) : bool :=
  match p, s with
  | EmptyString, _ => true
  | String a p', String b s' => Ascii.eqb a b && startswith p' s'
  | String _ _, EmptyString => false
  end.

(** [needle in hay] *)
Fixpoint contains (needle hay : string) : bool :=
  startswith needle hay
  || match hay with
     | EmptyString => false
     | String _ rest => contains needle rest
     end.

Definition newline : ascii := ascii_of_N 10.

(** [len(re.findall("^" + p, s, re.MULTILINE))] for a literal, non-empty
    pattern [p] that holds no newline: the number of line starts (the start
    of [s] and each position after a newline) at which [p] begins.  A match
    consumes no newline, so matches found at distinct line starts never
    overlap.  [bol] tells whether the scan stands at a line start. *)
Fixpoint count_line_prefix (p : string) (bol : bool) (s : string) : Z :=
  match s with
  | EmptyString => 0
  | String c rest =>
      (if bol && startswith p s then 1 else 0)
      + count_line_prefix p (Ascii.eqb c newline) rest
  end.

(** [s * n] *)
Fixpoint str_repeat (s : string) (n : nat) : string :=
  match n with
  | O => EmptyString
  | S k => s +:+ str_repeat s k
  end.

(** [sep.join(parts)] *)
Definition join (sep : string) (parts : list string) : string :=
  String.concat sep parts.

(** *** Floats: IEEE 754 binary64 *)

Definition prec : Z := 53.
Definition emax : Z := 1024.

Definition float : Type := spec_float.

(** [float(n)], the conversion applied to the [int] operand of a mixed
    [float * int] product. *)
Definition float_of_int (n : Z) : float :=
  binary_normalize prec emax n 0 false.

(** An integer as an unrounded operand of the division. *)
Definition exact_of_int (n : Z) : float :=
  match n with
  | Z0 => S754_zero false
  | Zpos p => S754_finite false p 0
  | Zneg p => S754_finite true p 0
  end.

Definition is_infinite (f : float) : bool :=
  match f with
  | S754_infinity _ => true
  | _ => false
  end.

(** [a / b] on two [int]s: the quotient rounded once to the nearest
    double, ties to even. *)
Definition truediv (a b : Z) : result float :=
  if b =? 0 then Raise (ZeroDivisionError "division by zero")
  else
    let q := SFdiv prec emax (exact_of_int a) (exact_of_int b) in
    if is_infinite q
    then Raise (OverflowError "integer division result too large for a float")
    else Ok q.

(** [x * n] for a [float] [x] and an [int] [n]. *)
Definition mul_int (x : float) (n : Z) : float :=
  SFmul prec emax x (float_of_int n).

(** [int(x)]: truncation toward zero. *)
Definition int_of_float (x : float) : result Z :=
  match x with
  | S754_zero _ => Ok 0
  | S754_finite s m e => Ok (cond_Zopp s (Z.shiftl (Zpos m) e))
  | S754_infinity _ =>
      Raise (OverflowError "cannot convert float infinity to integer")
  | S754_nan => Raise (ValueError "cannot convert float NaN to integer")
  end.

(** [int(a / b * c)] on three [int]s, the shape of every partial-credit
    formula and of the final score. *)
Definition int_ratio_times (a b c : Z) : result Z :=
  q ← truediv a b; int_of_float (mul_int q c).

End Py.

(** ** [rewriter/seo.py] *)

Module Seo.
Import Py.

Record SEOResult : Type := {
  passed : bool;
  score : Z;
  issues : list string
}.

(** Thresholds of [SEOValidator]. *)
Definition TITLE_MIN_LEN : Z := 30.
Definition TITLE_MAX_LEN : Z := 70.
Definition META_MIN_LEN : Z := 120.
Definition META_MAX_LEN : Z := 170.
Definition MIN_H2_COUNT : Z := 2.
Definition MIN_WORD_COUNT : Z := 500.
Definition PASS_THRESHOLD : Z := 70.

Definition link_placeholder : string := "{{novig_internal_link}}".

(** The three local variables that [validate] updates check by check. *)
Record tally : Type := {
  seen_issues : list string;
  total_points : Z;
  max_points : Z
}.

Definition start : tally :=
  {| seen_issues := []; total_points := 0; max_points := 0 |}.

(** [max_points += n] *)
Definition add_max (n : Z) (t : tally) : tally :=
  {| seen_issues := seen_issues t;
     total_points := total_points t;
     max_points := max_points t + n |}.

(** [total_points += n] *)
Definition add_points (n : Z) (t : tally) : tally :=
  {| seen_issues := seen_issues t;
     total_points := total_points t + n;
     max_points := max_points t |}.

(** [issues.append(msg)] *)
Definition append_issue (msg : string) (t : tally) : tally :=
  {| seen_issues := seen_issues t ++ [msg];
     total_points := total_points t;
     max_points := max_points t |}.

(** [# --- Title length ---] *)
Definition check_title (title : string) (t : tally) : tally :=
  let t := add_max 20 t in
  let title_len := len title in
  if (TITLE_MIN_LEN <=? title_len) && (title_len <=? TITLE_MAX_LEN)
  then add_points 20 t
  else
    let t := append_issue
               ("Title length is " +:+ str_of_int title_len +:+ " chars "
                +:+ "(target: " +:+ str_of_int TITLE_MIN_LEN +:+ "-"
                +:+ str_of_int TITLE_MAX_LEN +:+ ")") t in
    if title_len >? 0 then add_points 5 t else t.

(** [# --- Meta description length ---] *)
Definition check_meta (meta_description : string) (t : tally) : tally :=
  let t := add_max 20 t in
  let meta_len := len meta_description in
  if (META_MIN_LEN <=? meta_len) && (meta_len <=? META_MAX_LEN)
  then add_points 20 t
  else
    let t := append_issue
               ("Meta description length is " +:+ str_of_int meta_len
                +:+ " chars " +:+ "(target: " +:+ str_of_int META_MIN_LEN
                +:+ "-" +:+ str_of_int META_MAX_LEN +:+ ")") t in
    if meta_len >? 0 then add_points 5 t else t.

(** [# --- H2 headings ---] *)
Definition check_h2 (body : string) (t : tally) : tally :=
  let t := add_max 20 t in
  let h2_count := count_line_prefix "## " true body in
  if h2_count >=? MIN_H2_COUNT
  then add_points 20 t
  else
    let t := append_issue
               ("Found " +:+ str_of_int h2_count +:+ " H2 headings (minimum: "
                +:+ str_of_int MIN_H2_COUNT +:+ ")") t in
    add_points (Z.min (h2_count * 10) 15) t.

(** [# --- Word count ---] *)
Definition check_words (body : string) (t : tally) : result tally :=
  let t := add_max 20 t in
  let word_count := split_len body in
  if word_count >=? MIN_WORD_COUNT
  then Ok (add_points 20 t)
  else
    let t := append_issue
               ("Word count is " +:+ str_of_int word_count +:+ " (minimum: "
                +:+ str_of_int MIN_WORD_COUNT +:+ ")") t in
    p ← int_ratio_times word_count MIN_WORD_COUNT 15;
    Ok (add_points (Z.min p 15) t).

(** [kw.lower() in body_lower] *)
Definition kw_in (body_lower kw : string) : bool :=
  contains (lower kw) body_lower.

(** [# --- Keywords ---]; [None] and the empty list are both falsy. *)
Definition check_keywords (body : string) (keywords : option (list string))
    (t : tally) : result tally :=
  let t := add_max 10 t in
  match keywords with
  | Some ((_ :: _) as keywords) =>
      let body_lower := lower body in
      let found := Z.of_nat (length (filter (fun kw => kw_in body_lower kw = true) keywords)) in
      if found =? Z.of_nat (length keywords)
      then Ok (add_points 10 t)
      else if found >? 0
      then
        p ← int_ratio_times found (Z.of_nat (length keywords)) 10;
        let t := add_points p t in
        let missing := filter (fun kw => kw_in body_lower kw = false) keywords in
        Ok (append_issue ("Missing keywords: " +:+ join ", " missing) t)
      else Ok (append_issue "No target keywords found in body" t)
  | _ =>
      Ok (add_points 10 t)
  end.

(** [# --- Internal link placeholder ---] *)
Definition check_link (body : string) (t : tally) : tally :=
  let t := add_max 10 t in
  if contains link_placeholder body
  then add_points 10 t
  else append_issue ("Missing " +:+ link_placeholder +:+ " placeholder") t.

(** The six checks in the order of the source. *)
Definition run_checks (title meta_description body : string)
    (keywords : option (list string)) : result tally :=
  let t := check_title title start in
  let t := check_meta meta_description t in
  let t := check_h2 body t in
  t ← check_words body t;
  t ← check_keywords body keywords t;
  Ok (check_link body t).

(** [int(total_points / max_points * 100) if max_points > 0 else 0] *)
Definition final_score (t : tally) : result Z :=
  if max_points t >? 0
  then int_ratio_times (total_points t) (max_points t) 100
  else Ok 0.

(** [SEOValidator.validate]; [keywords] is [None] when the argument is
    omitted. *)
Definition validate (title meta_description body : string)
    (keywords : option (list string)) : result SEOResult :=
  t ← run_checks title meta_description body keywords;
  score ← final_score t;
  let passed := score >=? PASS_THRESHOLD in
  Ok {| passed := passed; score := score; issues := seen_issues t |}.

(** *** Views of one check run on its own

    The points a check awards and the issues it appends, read off the check
    run from the empty tally. *)

Definition outcome : Type := Z * list string.

Definition outcome_of (t : tally) : outcome := (total_points t, seen_issues t).

Definition title_outcome (title : string) : outcome :=
  outcome_of (check_title title start).

Definition meta_outcome (meta_description : string) : outcome :=
  outcome_of (check_meta meta_description start).

Definition h2_outcome (body : string) : outcome :=
  outcome_of (check_h2 body start).

Definition words_outcome (body : string) : result outcome :=
  t ← check_words body start; Ok (outcome_of t).

Definition keywords_outcome (body : string) (keywords : option (list string))
  : result outcome :=
  t ← check_keywords body keywords start; Ok (outcome_of t).

Definition link_outcome (body : string) : outcome :=
  outcome_of (check_link body start).

(** The tally after a check of weight [w] whose outcome is [o]. *)
Definition credit (w : Z) (o : outcome) (t : tally) : tally :=
  {| seen_issues := seen_issues t ++ o.2;
     total_points := total_points t + o.1;
     max_points := max_points t + w |}.

(** The points the word-count check gives to a body of [w] words, with the
    partial credit as the exact integer quotient. *)
Definition word_credit (w : Z) : Z :=
  if w >=? MIN_WORD_COUNT then 20 else Z.min (w * 15 / 500) 15.

(** What [int(t / 100 * 100)] evaluates to for a total [t] between 0 and
    100: the doubles nearest to 0.29, 0.57 and 0.58, times 100, round to
    just under 29, 57 and 58. *)
Definition score_of_total (t : Z) : Z :=
  if (t =? 29) || (t =? 57) || (t =? 58) then t - 1 else t.

(** A check of weight [w] either scored full marks and said nothing, or
    scored less and left exactly one message. *)
Definition full_or_one_issue (w : Z) (o : outcome) : Prop :=
  (o.1 = w /\ o.2 = []) \/ (o.1 < w /\ exists msg, o.2 = [msg]).

(** The number of keywords handed to [validate]. *)
Definition keyword_count (keywords : option (list string)) : Z :=
  match keywords with
  | Some kws => Z.of_nat (length kws)
  | None => 0
  end.

(** *** Sample articles *)

(** A well-sized title and meta description over a body with one H2
    heading, 242 words, no keyword hit and no link placeholder. *)
Definition sample_title : string := str_repeat "A" 50.
Definition sample_meta : string := str_repeat "A" 150.
Definition one_heading_body : string :=
  "## H" +:+ String newline (str_repeat "w " 240).
Definition absent_keywords : option (list string) := Some ["zzz"].

End Seo.

(** ** [pipeline/processor.py] *)

Module Processor.
Import Py.

(** [DEDUP_THRESHOLD = 0.85]: the double nearest to 0.85. *)
Definition DEDUP_THRESHOLD : float :=
  S754_finite false 7656119366529843 (-53).

(** [x >= y] on floats; false when either is a NaN. *)
Definition float_ge (x y : float) : bool := SFleb y x.

(** [d.get(key, default)] *)
Definition get (d : gmap string string) (key dflt : string) : string :=
  default dflt (d !! key).

(** The truth value of a [str]: non-empty. *)
Definition truthy (s : string) : bool := negb (String.eqb s "").

Section Dedup.

(** [difflib.SequenceMatcher(None, a, b).ratio()], the standard library's
    similarity measure, is taken as given. *)
Variable SequenceMatcher_ratio : string -> string -> float.

Definition _title_similarity (a b : string) : float :=
  SequenceMatcher_ratio (lower a) (lower b).

(** The body of the [for prev in seen] loop on one [prev]: [true] when the
    loop returns [True] there. *)
Definition matches (url title : string) (prev : gmap string string) : bool :=
  if truthy url && String.eqb url (get prev "url" "") then true
  else
    let prev_title := get prev "title" "" in
    truthy title && truthy prev_title
    && float_ge (_title_similarity title prev_title) DEDUP_THRESHOLD.

Fixpoint scan_seen (url title : string) (seen : list (gmap string string))
  : bool :=
  match seen with
  | [] => false
  | prev :: rest =>
      if matches url title prev then true else scan_seen url title rest
  end.

Definition _is_duplicate (article : gmap string string)
    (seen : list (gmap string string)) : bool :=
  let url := get article "url" "" in
  let title := get article "title" "" in
  scan_seen url title seen.

(** The loop of [deduplicate], started with [unique] already accepted. *)
Fixpoint deduplicate_from (unique articles : list (gmap string string))
  : list (gmap string string) :=
  match articles with
  | [] => unique
  | article :: rest =>
      if negb (_is_duplicate article unique)
      then deduplicate_from (unique ++ [article]) rest
      else deduplicate_from unique rest
  end.

(** [PipelineProcessor.deduplicate] *)
Definition deduplicate (articles : list (gmap string string))
  : list (gmap string string) :=
  deduplicate_from [] articles.

(** The duplicate relation in the words of the specification: the same
    non-empty url, or two non-empty titles whose case-folded similarity
    reaches the threshold. *)
Definition duplicate_of (candidate accepted : gmap string string) : Prop :=
  (get candidate "url" "" <> "" /\ get candidate "url" "" = get accepted "url" "")
  \/ (get candidate "title" "" <> "" /\ get accepted "title" "" <> ""
      /\ float_ge (SequenceMatcher_ratio (lower (get candidate "title" ""))
                     (lower (get accepted "title" "")))
                  DEDUP_THRESHOLD = true).

End Dedup.

End Processor.

(** ** [rewriter/templates.py] *)

Module Templates.
Import Py.

Definition CONTENT_TYPES : list string :=
  ["best_bets"; "player_props"; "odds_analysis"; "predictions"].

Section Lookup.

(** The four prompt texts; [get_template] only passes them on. *)
Variables BEST_BETS_TEMPLATE PLAYER_PROPS_TEMPLATE : string.
Variables ODDS_ANALYSIS_TEMPLATE PREDICTIONS_TEMPLATE : string.

Definition _TEMPLATES : gmap string string :=
  <["best_bets" := BEST_BETS_TEMPLATE]>
    (<["player_props" := PLAYER_PROPS_TEMPLATE]>
       (<["odds_analysis" := ODDS_ANALYSIS_TEMPLATE]>
          (<["predictions" := PREDICTIONS_TEMPLATE]> ∅))).

Definition unknown_content_type (content_type : string) : string :=
  "Unknown content type '" +:+ content_type +:+ "'. "
  +:+ "Must be one of: " +:+ join ", " CONTENT_TYPES.

Definition get_template (content_type : string) : result string :=
  match _TEMPLATES !! content_type with
  | None => Raise (ValueError (unknown_content_type content_type))
  | Some _ =>
      match _TEMPLATES !! content_type with
      | Some template => Ok template
      | None => Raise (KeyError content_type)
      end
  end.

End Lookup.

End Templates.

(** ** Rounding to a double: notions used in the proofs *)

Module Round.

(** The number of low bits that rounding a mantissa [m] at exponent [e]
    drops. *)
Definition dropped (m e : Z) : Z :=
  Z.max 0 (fexp Py.prec Py.emax (Zdigits2 m + e) - e).

(** [x] is a non-negative finite double of value at most [B * 2 ^ e]. *)
Definition at_most (x : spec_float) (e B : Z) : Prop :=
  match x with
  | S754_zero false => True
  | S754_finite false p e2 => e <= e2 /\ Z.pos p * 2 ^ (e2 - e) <= B
  | _ => False
  end.

(** [B * 2 ^ e] is on the grid of the format: the bits that rounding would
    drop from [B] are all zero. *)
Definition on_grid (e B : Z) : Prop := (2 ^ dropped B e | B).

(** [x] is a non-negative finite double of value at most [N / D]. *)
Definition at_most_ratio (x : spec_float) (N D : Z) : Prop :=
  match x with
  | S754_zero false => True
  | S754_finite false p e => e <= 0 /\ Z.pos p * D <= N * 2 ^ (- e)
  | _ => False
  end.

(** The mantissa of [float(10)], at exponent [-49]. *)
Definition ten_mantissa : Z := 5629499534213120.

End Round.

(** ** Further views used in the proofs *)

Module SeoViews.
Import Py Seo.

(** [found] and [len(keywords)] of the keyword check. *)
Definition found_count (body : string) (keywords : list string) : Z :=
  Z.of_nat (length (filter (fun kw => kw_in (lower body) kw = true) keywords)).

(** The points of the keyword check as a function of [found] and
    [len(keywords)]. *)
Definition keyword_points (found n : Z) : Z :=
  if n =? 0 then 10
  else if found =? n then 10
  else if found >? 0
       then match int_ratio_times found n 10 with
            | Ok p => p
            | Raise _ => 0
            end
       else 0.

End SeoViews.

Module ProcessorViews.
Import Py Processor.

(** No record of [l] is a duplicate of a record before it. *)
Definition fresh (ratio : string -> string -> float)
    (l : list (gmap string string)) : Prop :=
  forall pre x post, l = (pre ++ x :: post)%list ->
    ~ exists a, a ∈ pre /\ duplicate_of ratio x a.

(** A similarity that never reaches the threshold, and three sample
    records. *)
Definition never_similar (a b : string) : float := S754_zero false.
Definition record_a : gmap string string := {[ "url" := "a.com/1"; "title" := "X" ]}.
Definition record_b : gmap string string := {[ "url" := "a.com/1"; "title" := "Y" ]}.
Definition record_c : gmap string string := {[ "url" := "b.com/2"; "title" := "Z" ]}.

End ProcessorViews.

(** ** [rewriter/engine.py] *)

Module Engine.
Import Py.

(** *** More string primitives *)

(** The double quote character. *)
Definition quote : ascii := ascii_of_N 34.

(** [s.lstrip(...)]: drop the leading characters that satisfy [f]. *)
Fixpoint lstrip_by (f : ascii -> bool) (s : string) : string :=
  match s with
  | EmptyString => EmptyString
  | String c rest => if f c then lstrip_by f rest else s
  end.

(** [s.rstrip(...)]: drop the trailing characters that satisfy [f]. *)
Fixpoint rstrip_by (f : ascii -> bool) (s : string) : string :=
  match s with
  | EmptyString => EmptyString
  | String c rest =>
      match rstrip_by f rest with
      | EmptyString => if f c then EmptyString else String c EmptyString
      | kept => String c kept
      end
  end.

(** [s.strip()] *)
Definition strip (s : string) : string :=
  rstrip_by isspace (lstrip_by isspace s).

(** [s.strip(c)] for a single character [c]. *)
Definition strip_char (c : ascii) (s : string) : string :=
  rstrip_by (Ascii.eqb c) (lstrip_by (Ascii.eqb c) s).

(** [c in s] for a character [c]. *)
Fixpoint mem_char (c : ascii) (s : string) : bool :=
  match s with
  | EmptyString => false
  | String d rest => Ascii.eqb c d || mem_char c rest
  end.

Definition not_newline (c : ascii) : bool := negb (Ascii.eqb newline c).

(** Every character of [s] satisfies [f]. *)
Fixpoint all_chars (f : ascii -> bool) (s : string) : bool :=
  match s with
  | EmptyString => true
  | String c rest => f c && all_chars f rest
  end.

(** The text up to the first newline: what a greedy dot-plus takes
    without [re.DOTALL]. *)
Fixpoint first_line (s : string) : string :=
  match s with
  | EmptyString => EmptyString
  | String c rest =>
      if Ascii.eqb c newline then EmptyString else String c (first_line rest)
  end.

(** The remainder of [s] after the prefix [p], when [s] starts with [p]. *)
Fixpoint strip_prefix (p s : string) : option string :=
  match p, s with
  | EmptyString, _ => Some s
  | String a p', String b s' =>
      if Ascii.eqb a b then strip_prefix p' s' else None
  | String _ _, EmptyString => None
  end.

(** The last character of [s] that is no newline. *)
Fixpoint last_non_newline (s : string) : option ascii :=
  match s with
  | EmptyString => None
  | String c rest =>
      match last_non_newline rest with
      | Some d => Some d
      | None => if Ascii.eqb c newline then None else Some c
      end
  end.

(** *** [parse_claude_response] *)

(** The pattern after the tag of the title and meta description searches
    (any whitespace, then a group of one or more characters other than a
    newline, then the end of a line, under [re.MULTILINE]), tried on the
    text [r] that follows the tag: the group it captures, if it matches.
    The greedy whitespace first takes all leading whitespace, newlines
    included; if text is left, the group takes the rest of that line.  If
    nothing is left, the whitespace gives characters back until the group
    can start, which is at the last character that is no newline, and the
    group is that character alone. *)
Definition match_field (r : string) : option string :=
  match lstrip_by isspace r with
  | EmptyString =>
      match last_non_newline r with
      | Some c => Some (String c EmptyString)
      | None => None
      end
  | rest => Some (first_line rest)
  end.

(** The pattern after the tag of the body search (any whitespace, a
    newline, then a group of any characters, under [re.DOTALL]), tried on
    the text [r] that follows the tag: the greedy whitespace stops before
    the last newline of the leading whitespace, and the group is all the
    text after that newline. *)
Fixpoint match_body (r : string) : option string :=
  match r with
  | EmptyString => None
  | String c rest =>
      if isspace c
      then match match_body rest with
           | Some g => Some g
           | None => if Ascii.eqb c newline then Some rest else None
           end
      else None
  end.

(** [re.search] under [re.MULTILINE] for a pattern that is a line start,
    the literal [tag] and then [attempt]: the group of the first match, trying each line start from left to right.  [attempt] is
    the pattern after the tag; [bol] tells whether the scan stands at a line
    start. *)
Fixpoint search_lines (tag : string) (attempt : string -> option string)
    (bol : bool) (s : string) : option string :=
  let here :=
    if bol
    then match strip_prefix tag s with
         | Some r => attempt r
         | None => None
         end
    else None in
  match here with
  | Some g => Some g
  | None =>
      match s with
      | EmptyString => None
      | String c rest => search_lines tag attempt (Ascii.eqb c newline) rest
      end
  end.

Definition parse_claude_response (text : string) : string * string * string :=
  let title :=
    match search_lines "TITLE:" match_field true text with
    | Some g => strip_char quote (strip g)
    | None => ""
    end in
  let meta_description :=
    match search_lines "META_DESCRIPTION:" match_field true text with
    | Some g => strip_char quote (strip g)
    | None => ""
    end in
  let body :=
    match search_lines "BODY:" match_body true text with
    | Some g => strip g
    | None => ""
    end in
  (title, meta_description, body).

(** A response in the format that the docstring of
    [parse_claude_response] expects. *)
Definition documented_response (title meta_description body : string) : string :=
  "TITLE: " +:+ title
  +:+ String newline ("META_DESCRIPTION: " +:+ meta_description
  +:+ String newline ("BODY:" +:+ String newline body)).

(** *** The file name of [rewrite_and_save] *)

(** A character that the class of word characters matches, for code points
    below 256: the ASCII letters, digits and underscore, and the Latin-1
    letters and numerals. *)
Definition is_word (c : ascii) : bool :=
  let n := N_of_ascii c in
  (((48 <=? n) && (n <=? 57)) || ((65 <=? n) && (n <=? 90)) || (n =? 95)
   || ((97 <=? n) && (n <=? 122))
   || (n =? 170) || (n =? 178) || (n =? 179) || (n =? 181) || (n =? 185)
   || (n =? 186) || ((188 <=? n) && (n <=? 190))
   || ((192 <=? n) && (n <=? 214)) || ((216 <=? n) && (n <=? 246))
   || ((248 <=? n) && (n <=? 255)))%N.

Definition dash : ascii := ascii_of_N 45.

(** The characters that the first substitution keeps: word characters,
    whitespace and the dash. *)
Definition kept_in_title (c : ascii) : bool :=
  is_word c || isspace c || Ascii.eqb c dash.

(** [re.sub] with the empty replacement for a class: keep the characters
    outside the class. *)
Fixpoint keep_chars (f : ascii -> bool) (s : string) : string :=
  match s with
  | EmptyString => EmptyString
  | String c rest =>
      if f c then String c (keep_chars f rest) else keep_chars f rest
  end.

(** [re.sub] of every maximal run of whitespace by one dash.  [in_run]
    tells whether the previous character was whitespace. *)
Fixpoint dash_runs (in_run : bool) (s : string) : string :=
  match s with
  | EmptyString => EmptyString
  | String c rest =>
      if isspace c
      then (if in_run then dash_runs true rest
            else String dash (dash_runs true rest))
      else String c (dash_runs false rest)
  end.

(** [s[:n]] *)
Fixpoint take_chars (n : nat) (s : string) : string :=
  match n, s with
  | O, _ => EmptyString
  | S k, String c rest => String c (take_chars k rest)
  | S _, EmptyString => EmptyString
  end.

(** A character of a file name: a word character that is no capital, or
    the dash. *)
Definition name_char (c : ascii) : bool :=
  (is_word c && Ascii.eqb (lower_char c) c) || Ascii.eqb c dash.

Definition safe_title (title : string) : string :=
  let safe_title := strip (keep_chars kept_in_title title) in
  take_chars 60 (lower (dash_runs false safe_title)).

Definition output_filename (content_type title : string) : string :=
  content_type +:+ "_" +:+ safe_title title +:+ ".md".

(** *** The keywords of [rewrite] *)

Definition DEFAULT_KEYWORDS : list string := ["Novig"; "prediction markets"].

(** [list(set((keywords or []) + DEFAULT_KEYWORDS))]: some list without
    repetitions, in an order the language leaves open, of the given and the
    default keywords. *)
Definition merged_keywords (keywords : option (list string))
    (merged : list string) : Prop :=
  NoDup merged
  /\ forall kw, kw ∈ merged <-> kw ∈ (default [] keywords ++ DEFAULT_KEYWORDS)%list.

End Engine.

(** * Proofs *)

(** ** Rounding to the nearest double *)

Module RoundFacts.
Import Round.

Lemma iter_pos_nat {A : Type} (f : A -> A) (p : positive) (x : A) :
  SpecFloat.iter_pos f p x = Nat.iter (Pos.to_nat p) f x.
Proof.
  revert x. induction p as [p IH | p IH | ]; intros x; cbn [SpecFloat.iter_pos].
  - rewrite !IH, Pos2Nat.inj_xI.
    replace (S (2 * Pos.to_nat p)) with (Pos.to_nat p + S (Pos.to_nat p))%nat by lia.
    rewrite Nat.iter_add, Nat.iter_succ_r. reflexivity.
  - rewrite !IH, Pos2Nat.inj_xO.
    replace (2 * Pos.to_nat p)%nat with (Pos.to_nat p + Pos.to_nat p)%nat by lia.
    now rewrite Nat.iter_add.
  - reflexivity.
Qed.

Lemma shr_1_nonneg (m : Z) (r s : bool) :
  0 <= m ->
  shr_1 (Build_shr_record m r s) = Build_shr_record (m / 2) (Z.odd m) (r || s).
Proof.
  intros Hm. destruct m as [ | p | p ]; [reflexivity | | lia].
  destruct p as [p | p | ]; cbn [shr_1 Z.odd].
  - f_equal. rewrite Pos2Z.inj_xI. apply Z.div_unique with (r := 1); lia.
  - f_equal. rewrite Pos2Z.inj_xO. apply Z.div_unique with (r := 0); lia.
  - reflexivity.
Qed.

(** [k] successive shifts keep the quotient, the last bit shifted out and
    whether anything below it was set. *)
Lemma iter_shr_1 (k : nat) (m : Z) (r s : bool) :
  0 <= m ->
  Nat.iter (S k) shr_1 (Build_shr_record m r s)
  = Build_shr_record (m / 2 ^ Z.of_nat (S k)) (Z.testbit m (Z.of_nat k))
      (r || s || negb (m mod 2 ^ Z.of_nat k =? 0)).
Proof.
  intros Hm. induction k as [ | k IH].
  - cbn [Nat.iter]. rewrite shr_1_nonneg by assumption.
    change (Z.of_nat 0) with 0. change (Z.of_nat 1) with 1.
    rewrite Z.pow_0_r, Z.mod_1_r, Z.pow_1_r, Z.bit0_odd. cbn.
    now rewrite orb_false_r.
  - rewrite Nat.iter_succ, IH.
    rewrite shr_1_nonneg by (apply Z.div_pos; lia).
    assert (Hk : 0 <= Z.of_nat k) by lia.
    replace (Z.of_nat (S (S k))) with (Z.of_nat (S k) + 1) by lia.
    rewrite Z.pow_add_r, Z.pow_1_r by lia.
    rewrite Z.div_div by lia.
    f_equal.
    + replace (Z.of_nat (S k)) with (Z.of_nat k + 1) by lia.
      rewrite Z.testbit_odd. rewrite Z.shiftr_div_pow2 by lia. reflexivity.
    + replace (Z.of_nat (S k)) with (Z.of_nat k + 1) by lia.
      rewrite Z.pow_add_r, Z.pow_1_r by lia.
      rewrite Z.testbit_odd, Z.shiftr_div_pow2 by lia.
      set (P := 2 ^ Z.of_nat k). assert (HP : 0 < P) by (apply Z.pow_pos_nonneg; lia).
      rewrite Z.rem_mul_r by lia.
      pose proof (Z.mod_pos_bound m P HP) as Hb.
      pose proof (Z.mod_pos_bound (m / P) 2 ltac:(lia)) as Hb2.
      rewrite (Zmod_odd (m / P)) in *.
      destruct (Z.odd (m / P)); destruct r, s; cbn;
        destruct (Z.eqb_spec (m mod P) 0); destruct (Z.eqb_spec (m mod P + P * 1) 0);
        destruct (Z.eqb_spec (m mod P + P * 0) 0); cbn; try reflexivity; try lia.
Qed.

Lemma digits2_pos_size (p : positive) : digits2_pos p = Pos.size p.
Proof. induction p; cbn; congruence. Qed.

Lemma Zdigits2_bounds (m : Z) :
  0 < m -> 2 ^ (Zdigits2 m - 1) <= m < 2 ^ Zdigits2 m.
Proof.
  intros Hm. destruct m as [ | p | p ]; try lia.
  cbn [Zdigits2]. rewrite digits2_pos_size.
  pose proof (Pos.size_gt p) as Hgt. pose proof (Pos.size_le p) as Hle.
  apply Pos2Z.pos_lt_pos in Hgt. apply Pos2Z.pos_le_pos in Hle.
  rewrite Pos2Z.inj_pow in Hgt, Hle.
  split; [ | exact Hgt].
  assert (Hs : 2 ^ Z.pos (Pos.size p) = 2 * 2 ^ (Z.pos (Pos.size p) - 1)).
  { rewrite <- Z.pow_succ_r by lia. f_equal. lia. }
  rewrite Hs in Hle. lia.
Qed.

Lemma Zdigits2_nonneg (m : Z) : 0 <= Zdigits2 m.
Proof. destruct m; cbn; lia. Qed.

Lemma Zdigits2_mono (a b : Z) : 0 <= a <= b -> Zdigits2 a <= Zdigits2 b.
Proof.
  intros [Ha Hab].
  destruct (Z.eq_dec a 0) as [-> | Hne]; [apply Zdigits2_nonneg | ].
  pose proof (Zdigits2_bounds a ltac:(lia)) as [Hla _].
  pose proof (Zdigits2_bounds b ltac:(lia)) as [_ Hub].
  assert (H : 2 ^ (Zdigits2 a - 1) < 2 ^ Zdigits2 b) by lia.
  apply Z.pow_lt_mono_r_iff in H; [lia | lia | apply Zdigits2_nonneg].
Qed.

(** A number below [2 ^ d] has at most [d] binary digits. *)
Lemma Zdigits2_le (m d : Z) : 0 <= m < 2 ^ d -> 0 <= d -> Zdigits2 m <= d.
Proof.
  intros [Hm Hlt] Hd.
  destruct (Z.eq_dec m 0) as [-> | Hne]; [exact Hd | ].
  pose proof (Zdigits2_bounds m ltac:(lia)) as [Hl _].
  assert (H : 2 ^ (Zdigits2 m - 1) < 2 ^ d) by lia.
  apply Z.pow_lt_mono_r_iff in H; lia.
Qed.

Abbreviation fexp := (SpecFloat.fexp Py.prec Py.emax).
Abbreviation shr_fexp := (SpecFloat.shr_fexp Py.prec Py.emax).
Abbreviation binary_round_aux := (SpecFloat.binary_round_aux Py.prec Py.emax).

Lemma fexp_mono (a b : Z) : a <= b -> fexp a <= fexp b.
Proof. unfold SpecFloat.fexp. lia. Qed.

Lemma shr_record_of_loc_m (m : Z) (l : location) :
  shr_m (shr_record_of_loc m l) = m.
Proof. destruct l as [ | [ ] ]; reflexivity. Qed.

Lemma loc_of_shr_record_of_loc (m : Z) (l : location) :
  loc_of_shr_record (shr_record_of_loc m l) = l.
Proof. destruct l as [ | [ ] ]; reflexivity. Qed.

Lemma shr_fexp_spec (m e : Z) (l : location) :
  0 <= m ->
  exists mrs,
    shr_fexp m e l = (mrs, e + dropped m e)
    /\ shr_m mrs = m / 2 ^ dropped m e
    /\ (dropped m e = 0 -> loc_of_shr_record mrs = l)
    /\ (0 < dropped m e -> shr_r mrs = Z.testbit m (dropped m e - 1)).
Proof.
  intros Hm. unfold SpecFloat.shr_fexp, shr, dropped.
  destruct (fexp (Zdigits2 m + e) - e) as [ | p | p ] eqn:Hn.
  - exists (shr_record_of_loc m l). cbn [Z.max Z.compare].
    rewrite Z.add_0_r, shr_record_of_loc_m, loc_of_shr_record_of_loc, Z.pow_0_r, Z.div_1_r.
    repeat split; lia.
  - replace (Z.max 0 (Z.pos p)) with (Z.pos p) by lia.
    eexists. split; [reflexivity | ].
    rewrite iter_pos_nat.
    destruct (Pos2Nat.is_succ p) as [k Hk]. rewrite Hk.
    assert (HZ : Z.pos p = Z.of_nat (S k)) by lia.
    replace (shr_record_of_loc m l)
      with (Build_shr_record m (shr_r (shr_record_of_loc m l))
              (shr_s (shr_record_of_loc m l)))
      by (destruct l as [ | [ ] ]; reflexivity).
    rewrite iter_shr_1 by assumption. cbn [shr_m shr_r].
    rewrite HZ. repeat split; try lia.
    intros _. f_equal. lia.
  - exists (shr_record_of_loc m l).
    replace (Z.max 0 (Z.neg p)) with 0 by lia.
    rewrite Z.add_0_r, shr_record_of_loc_m, loc_of_shr_record_of_loc, Z.pow_0_r, Z.div_1_r.
    repeat split; lia.
Qed.

Lemma round_nearest_even_bounds (m : Z) (l : location) :
  m <= round_nearest_even m l <= m + 1.
Proof. destruct l as [ | [ ] ]; cbn; try destruct (Z.even m); lia. Qed.

Lemma round_nearest_even_down (mrs : shr_record) :
  shr_r mrs = false ->
  round_nearest_even (shr_m mrs) (loc_of_shr_record mrs) = shr_m mrs.
Proof. destruct mrs as [m [ ] [ ]]; cbn; intros H; congruence. Qed.

(** A set bit [n - 1] puts the remainder modulo [2 ^ n] in the upper
    half. *)
Lemma testbit_upper_half (m n : Z) :
  0 <= m -> 0 < n -> Z.testbit m (n - 1) = true ->
  2 ^ (n - 1) <= m mod 2 ^ n.
Proof.
  intros Hm Hn Hb.
  rewrite Z.testbit_odd, Z.shiftr_div_pow2 in Hb by lia.
  assert (HP : 0 < 2 ^ (n - 1)) by (apply Z.pow_pos_nonneg; lia).
  replace n with (n - 1 + 1) at 2 by lia.
  rewrite Z.pow_add_r, Z.pow_1_r by lia.
  rewrite Z.rem_mul_r by lia.
  rewrite Zmod_odd, Hb.
  pose proof (Z.mod_pos_bound m (2 ^ (n - 1)) HP). lia.
Qed.

Lemma dropped_nonneg (m e : Z) : 0 <= dropped m e.
Proof. unfold dropped. lia. Qed.

Lemma dropped_mono (a b e : Z) : 0 <= a <= b -> dropped a e <= dropped b e.
Proof.
  intros H. unfold dropped.
  pose proof (fexp_mono (Zdigits2 a + e) (Zdigits2 b + e)
                ltac:(pose proof (Zdigits2_mono a b H); lia)).
  lia.
Qed.

Lemma pow2_divide (a b : Z) : 0 <= a <= b -> (2 ^ a | 2 ^ b).
Proof.
  intros H. exists (2 ^ (b - a)).
  rewrite <- Z.pow_add_r by lia. f_equal. lia.
Qed.

(** Above a grid point and below the middle of its cell, a mantissa has
    as many digits as the grid point. *)
Lemma dropped_same_cell (m e B : Z) :
  0 < B -> on_grid e B -> B <= m -> 2 * m < 2 * B + 2 ^ dropped B e ->
  dropped m e = dropped B e.
Proof.
  intros HB [K HK] HBm Hhalf.
  set (g := dropped B e) in *.
  assert (Hg : 0 <= g) by apply dropped_nonneg.
  assert (HP : 0 < 2 ^ g) by (apply Z.pow_pos_nonneg; lia).
  pose proof (Zdigits2_bounds B HB) as [_ HdB].
  pose proof (Zdigits2_nonneg B) as Hd0.
  assert (Hgd : g < Zdigits2 B).
  { assert (0 < K) by nia.
    assert (2 ^ g < 2 ^ Zdigits2 B) by nia.
    apply (Z.pow_lt_mono_r_iff 2); lia. }
  assert (Hcell : B + 2 ^ g <= 2 ^ Zdigits2 B).
  { destruct (pow2_divide g (Zdigits2 B) ltac:(lia)) as [J HJ].
    rewrite HJ in *.
    assert (K < J) by (apply (Z.mul_lt_mono_pos_r (2 ^ g)); lia).
    nia. }
  assert (Hdm : Zdigits2 m = Zdigits2 B).
  { apply Z.le_antisymm.
    - apply Zdigits2_le; lia.
    - apply Zdigits2_mono; lia. }
  unfold g, dropped. now rewrite Hdm.
Qed.

(** Rounding to nearest never crosses a grid point: a value that is at
    most [B * 2 ^ e], or exceeds it by less than half a cell, is rounded to
    at most [B * 2 ^ e]. *)
Lemma binary_round_aux_at_most (m e B : Z) (l : location) :
  0 <= m -> 0 < B -> on_grid e B ->
  B <= 2 ^ (Py.emax - Py.prec - e) ->
  (l <> loc_Exact -> m < B) ->
  (l = loc_Exact -> 2 * m < 2 * B + 2 ^ dropped B e) ->
  at_most (binary_round_aux false m e l) e B.
Proof.
  intros Hm HB Hgrid Hmax Hinexact Hexact.
  (* the first shift and the rounding step *)
  assert (Hstage1 : dropped m e <= dropped B e
                    /\ 2 * m < 2 * B + 2 ^ dropped m e
                    /\ (dropped m e = 0 -> l <> loc_Exact -> m < B)).
  { destruct (Z_le_gt_dec m B) as [Hle | Hgt].
    - pose proof (dropped_mono m B e ltac:(lia)).
      pose proof (dropped_nonneg m e).
      assert (0 < 2 ^ dropped m e) by (apply Z.pow_pos_nonneg; lia).
      split; [lia | split; [lia | ]]. intros _ Hl. auto.
    - assert (Hl : l = loc_Exact).
      { destruct l as [ | c]; [reflexivity | ].
        assert (m < B) by (apply Hinexact; discriminate). lia. }
      pose proof (Hexact Hl) as Hhalf.
      rewrite (dropped_same_cell m e B) by (auto; lia).
      split; [lia | split; [lia | ]]. intros _ Hne. contradiction. }
  destruct Hstage1 as (Hn & Hhalf & Hzero).
  set (n := dropped m e) in *.
  assert (Hn0 : 0 <= n) by apply dropped_nonneg.
  assert (HPn : 0 < 2 ^ n) by (apply Z.pow_pos_nonneg; lia).
  assert (HK : (2 ^ n | B)).
  { apply Z.divide_trans with (2 ^ dropped B e); [ | exact Hgrid].
    apply pow2_divide. lia. }
  destruct HK as [K HK].
  unfold SpecFloat.binary_round_aux.
  destruct (shr_fexp_spec m e l Hm) as (mrs1 & -> & Hm1 & Hloc1 & Hr1).
  fold n in Hm1, Hloc1, Hr1. cbv beta iota. fold n.
  set (m1 := round_nearest_even (shr_m mrs1) (loc_of_shr_record mrs1)).
  assert (Hm1K : 0 <= m1 <= K).
  { pose proof (round_nearest_even_bounds (shr_m mrs1) (loc_of_shr_record mrs1)) as Hb.
    fold m1 in Hb. rewrite Hm1 in Hb.
    assert (0 <= m / 2 ^ n) by (apply Z.div_pos; lia).
    split; [lia | ].
    destruct (Z.eq_dec n 0) as [Hz | Hnz].
    - (* nothing dropped *)
      rewrite Hz, Z.pow_0_r, Z.div_1_r in Hb.
      rewrite Hz, Z.pow_0_r in HK, Hhalf.
      unfold m1. rewrite Hloc1, Hm1, Hz, Z.pow_0_r, Z.div_1_r by assumption.
      destruct l as [ | c].
      + cbn. lia.
      + assert (m < B) by (apply Hzero; [assumption | discriminate]).
        pose proof (round_nearest_even_bounds m (loc_Inexact c)). lia.
    - (* [n] bits dropped *)
      destruct (shr_r mrs1) eqn:Hr.
      + assert (Hup : 2 ^ (n - 1) <= m mod 2 ^ n).
        { apply testbit_upper_half; [lia | lia | ]. rewrite <- Hr1 by lia. reflexivity. }
        assert (H2 : 2 ^ n = 2 * 2 ^ (n - 1)).
        { rewrite <- Z.pow_succ_r by lia. f_equal. lia. }
        pose proof (Z.div_mod m (2 ^ n) ltac:(lia)) as Hdm.
        assert (m / 2 ^ n < K) by nia.
        lia.
      + unfold m1. rewrite round_nearest_even_down, Hm1 by assumption.
        pose proof (Z.div_mod m (2 ^ n) ltac:(lia)) as Hdm.
        pose proof (Z.mod_pos_bound m (2 ^ n) HPn).
        assert (m / 2 ^ n < K + 1) by nia. lia. }
  (* the second shift *)
  destruct (shr_fexp_spec m1 (e + n) loc_Exact ltac:(lia)) as (mrs2 & -> & Hm2 & _ & _).
  set (n2 := dropped m1 (e + n)) in *.
  assert (Hn2 : 0 <= n2) by apply dropped_nonneg.
  assert (HP2 : 0 < 2 ^ n2) by (apply Z.pow_pos_nonneg; lia).
  cbv beta iota. rewrite Hm2.
  assert (Hfin : 0 <= m1 / 2 ^ n2 /\ m1 / 2 ^ n2 * 2 ^ (n + n2) <= B).
  { split; [apply Z.div_pos; lia | ].
    rewrite Z.pow_add_r by lia.
    pose proof (Z.mul_div_le m1 (2 ^ n2) HP2). nia. }
  destruct Hfin as [Hq0 HqB].
  destruct (m1 / 2 ^ n2) as [ | p | p ] eqn:Hq; [exact I | | lia].
  assert (Hpow : 2 ^ (n + n2) <= 2 ^ (Py.emax - Py.prec - e)).
  { assert (0 < 2 ^ (n + n2)) by (apply Z.pow_pos_nonneg; lia). nia. }
  assert (He : n + n2 <= Py.emax - Py.prec - e).
  { destruct (Z_lt_le_dec (Py.emax - Py.prec - e) 0) as [Hneg | Hpos].
    - rewrite (Z.pow_neg_r 2 (Py.emax - Py.prec - e)) in Hpow by assumption.
      assert (0 < 2 ^ (n + n2)) by (apply Z.pow_pos_nonneg; lia). lia.
    - apply (Z.pow_le_mono_r_iff 2); lia. }
  replace (e + n + n2 <=? Py.emax - Py.prec) with true by (symmetry; apply Z.leb_le; lia).
  cbn [at_most]. split; [lia | ].
  replace (e + n + n2 - e) with (n + n2) by lia. exact HqB.
Qed.

Lemma Zdigits2_unique (m d : Z) :
  0 < d -> 2 ^ (d - 1) <= m < 2 ^ d -> Zdigits2 m = d.
Proof.
  intros Hd [Hl Hu].
  assert (0 < 2 ^ (d - 1)) by (apply Z.pow_pos_nonneg; lia).
  pose proof (Zdigits2_bounds m ltac:(lia)) as [Hl' Hu'].
  pose proof (Zdigits2_nonneg m).
  assert (H1 : 2 ^ (d - 1) < 2 ^ Zdigits2 m) by lia.
  apply Z.pow_lt_mono_r_iff in H1; [ | lia | lia].
  destruct (Z.eq_dec (Zdigits2 m) 0) as [Hz | Hz].
  { rewrite Hz in Hu'. cbn in Hu'. lia. }
  assert (H2 : 2 ^ (Zdigits2 m - 1) < 2 ^ d) by lia.
  apply Z.pow_lt_mono_r_iff in H2; lia.
Qed.

(** Scaling a mantissa by a power of two shifts its digit count. *)
Lemma Zdigits2_scaled (c k w : Z) :
  0 < w -> 0 <= k -> 2 ^ (w - 1) <= c < 2 ^ w -> Zdigits2 (c * 2 ^ k) = w + k.
Proof.
  intros Hw Hk [Hl Hu]. apply Zdigits2_unique; [lia | ].
  assert (0 < 2 ^ k) by (apply Z.pow_pos_nonneg; lia).
  replace (w + k - 1) with (w - 1 + k) by lia.
  rewrite !Z.pow_add_r by lia. nia.
Qed.

Lemma at_most_to_ratio (x : spec_float) (e B N D : Z) :
  at_most x e B -> e <= 0 -> 0 < D -> N <= D ->
  B * D <= N * 2 ^ (- e) ->
  at_most_ratio x N D.
Proof.
  intros Hx He HD HND HB.
  destruct x as [[ ] | | | [ ] p e2]; cbn in *; try exact Hx.
  destruct Hx as [Hee Hp].
  assert (HP : 0 < 2 ^ (e2 - e)) by (apply Z.pow_pos_nonneg; lia).
  assert (HQ : 0 < 2 ^ (- e)) by (apply Z.pow_pos_nonneg; lia).
  assert (He2 : e2 <= 0).
  { assert (HBQ : B <= 2 ^ (- e)).
    { apply (Z.mul_le_mono_pos_r _ _ D); [exact HD | ]. nia. }
    assert (Hle : 2 ^ (e2 - e) <= 2 ^ (- e)) by nia.
    apply Z.pow_le_mono_r_iff in Hle; lia. }
  split; [exact He2 | ].
  assert (Hsplit : 2 ^ (- e) = 2 ^ (e2 - e) * 2 ^ (- e2)).
  { rewrite <- Z.pow_add_r by lia. f_equal. lia. }
  rewrite Hsplit in HB.
  assert (0 < 2 ^ (- e2)) by (apply Z.pow_pos_nonneg; lia).
  apply (Z.mul_le_mono_pos_r _ _ (2 ^ (e2 - e))); [exact HP | ]. nia.
Qed.

(** [a / b] for [0 < a < b]: the rounding of a quotient with at least 53
    bits. *)
Lemma SFdiv_lt_unfold (a b : Z) :
  0 < a < b ->
  exists s l,
    53 <= s
    /\ SFdiv Py.prec Py.emax (Py.exact_of_int a) (Py.exact_of_int b)
       = binary_round_aux false (a * 2 ^ s / b) (- s) l.
Proof.
  intros [Ha Hab].
  destruct a as [ | pa | pa]; try lia. destruct b as [ | pb | pb]; try lia.
  cbn [Py.exact_of_int SFdiv xorb].
  unfold SFdiv_core_binary.
  pose proof (Zdigits2_mono (Z.pos pa) (Z.pos pb) ltac:(lia)) as Hd.
  set (d1 := Zdigits2 (Z.pos pa)) in *. set (d2 := Zdigits2 (Z.pos pb)) in *.
  set (e' := Z.min (fexp (d1 + 0 - (d2 + 0))) (0 - 0)).
  assert (He' : e' <= -53).
  { unfold e', SpecFloat.fexp, emin, Py.prec, Py.emax. lia. }
  destruct (0 - 0 - e') as [ | ps | ps] eqn:Hs; try lia.
  rewrite Z.shiftl_mul_pow2 by lia.
  destruct (Z.div_eucl (Z.pos pa * 2 ^ Z.pos ps) (Z.pos pb)) as [q r] eqn:Hdiv.
  exists (Z.pos ps), (new_location (Z.pos pb) r).
  split; [lia | ].
  replace e' with (- Z.pos ps) by lia.
  f_equal. unfold Z.div. now rewrite Hdiv.
Qed.

Lemma at_most_finite (x : spec_float) (e B : Z) :
  at_most x e B -> Py.is_infinite x = false.
Proof. destruct x as [[ ] | | | [ ] p e2]; cbn; intros H; try reflexivity; contradiction. Qed.

(** A quotient of two integers [0 < a < b] is rounded to a double that is at
    most one. *)
Lemma truediv_le_one (a b : Z) :
  0 < a < b ->
  exists x, Py.truediv a b = Py.Ok x /\ at_most_ratio x 1 1.
Proof.
  intros Hab.
  destruct (SFdiv_lt_unfold a b Hab) as (s & l & Hs & Hdiv).
  assert (HP : 0 < 2 ^ s) by (apply Z.pow_pos_nonneg; lia).
  assert (Hq : 0 <= a * 2 ^ s / b < 2 ^ s).
  { split; [apply Z.div_pos; nia | ].
    apply Z.div_lt_upper_bound; nia. }
  assert (Hdig : Zdigits2 (2 ^ s) = s + 1).
  { apply Zdigits2_unique; [lia | ].
    replace (s + 1 - 1) with s by lia. rewrite Z.pow_add_r by lia. lia. }
  assert (Hdrop : dropped (2 ^ s) (- s) = s - 52).
  { unfold dropped. rewrite Hdig.
    replace (s + 1 + - s) with 1 by lia.
    change (fexp 1) with (-52). lia. }
  assert (Hx : at_most (binary_round_aux false (a * 2 ^ s / b) (- s) l) (- s) (2 ^ s)).
  { apply binary_round_aux_at_most; [lia | lia | | | intros _; lia | intros _ ].
    - unfold on_grid. rewrite Hdrop. apply pow2_divide. lia.
    - apply Z.pow_le_mono_r; unfold Py.emax, Py.prec; lia.
    - rewrite Hdrop.
      assert (0 < 2 ^ (s - 52)) by (apply Z.pow_pos_nonneg; lia). lia. }
  rewrite <- Hdiv in Hx.
  eexists. split.
  - unfold Py.truediv.
    replace (b =? 0) with false by (symmetry; apply Z.eqb_neq; lia).
    cbv zeta. rewrite (at_most_finite _ _ _ Hx). reflexivity.
  - apply (at_most_to_ratio _ (- s) (2 ^ s)); try lia; try exact Hx.
    rewrite Z.opp_involutive. lia.
Qed.

(** With a divisor below [2 ^ 53], the rounded quotient stays below one: it
    is at most the largest double under one. *)
Lemma truediv_lt_one (a b : Z) :
  0 < a < b -> b < 2 ^ 53 ->
  exists x, Py.truediv a b = Py.Ok x /\ at_most_ratio x (2 ^ 53 - 1) (2 ^ 53).
Proof.
  intros Hab Hb.
  destruct (SFdiv_lt_unfold a b Hab) as (s & l & Hs & Hdiv).
  assert (HP : 0 < 2 ^ (s - 53)) by (apply Z.pow_pos_nonneg; lia).
  assert (H2s : 2 ^ s = 2 ^ 53 * 2 ^ (s - 53)).
  { rewrite <- Z.pow_add_r by lia. f_equal. lia. }
  set (B := (2 ^ 53 - 1) * 2 ^ (s - 53)).
  assert (Hq : 0 <= a * 2 ^ s / b < B).
  { split; [apply Z.div_pos; nia | ].
    apply Z.div_lt_upper_bound; [lia | ].
    unfold B. rewrite H2s.
    assert (a * 2 ^ 53 < b * (2 ^ 53 - 1)) by lia. nia. }
  assert (Hdig : Zdigits2 B = s).
  { unfold B. replace s with (53 + (s - 53)) at 2 by lia.
    apply Zdigits2_scaled; lia. }
  assert (Hdrop : dropped B (- s) = s - 53).
  { unfold dropped. rewrite Hdig.
    replace (s + - s) with 0 by lia.
    change (fexp 0) with (-53). lia. }
  assert (Hx : at_most (binary_round_aux false (a * 2 ^ s / b) (- s) l) (- s) B).
  { apply binary_round_aux_at_most; [lia | unfold B; lia | | | intros _; lia | intros _ ].
    - unfold on_grid. rewrite Hdrop. exists (2 ^ 53 - 1). reflexivity.
    - apply Z.le_trans with (2 ^ s); [unfold B; lia | ].
      apply Z.pow_le_mono_r; unfold Py.emax, Py.prec; lia.
    - rewrite Hdrop. lia. }
  rewrite <- Hdiv in Hx.
  eexists. split.
  - unfold Py.truediv.
    replace (b =? 0) with false by (symmetry; apply Z.eqb_neq; lia).
    cbv zeta. rewrite (at_most_finite _ _ _ Hx). reflexivity.
  - apply (at_most_to_ratio _ (- s) B); try lia; try exact Hx.
    rewrite Z.opp_involutive. unfold B. lia.
Qed.

Lemma float_of_int_10 :
  Py.float_of_int 10 = S754_finite false 5629499534213120 (-49).
Proof. reflexivity. Qed.

(** Truncating a double of value at most [c / 2 ^ 49]. *)
Lemma int_of_float_at_most (y : spec_float) (ex c : Z) :
  ex <= 0 -> 0 <= c ->
  at_most y (ex - 49) (c * 2 ^ (- ex)) ->
  exists k, Py.int_of_float y = Py.Ok k /\ 0 <= k /\ k * 2 ^ 49 <= c.
Proof.
  intros Hex Hc Hy.
  destruct y as [[ ] | | | [ ] q e2]; cbn in Hy; try contradiction.
  - exists 0. cbn. repeat split; lia.
  - destruct Hy as [He2 Hq].
    exists (Z.shiftl (Z.pos q) e2). cbn [Py.int_of_float cond_Zopp].
    split; [reflexivity | ].
    split; [apply Z.shiftl_nonneg; lia | ].
    set (P := 2 ^ (- ex)) in *.
    assert (HP : 0 < P) by (apply Z.pow_pos_nonneg; lia).
    destruct (Z_le_gt_dec 0 e2) as [Hpos | Hneg].
    + rewrite Z.shiftl_mul_pow2 by lia.
      replace (e2 - (ex - 49)) with (e2 + 49 + - ex) in Hq by lia.
      rewrite !Z.pow_add_r in Hq by lia. fold P in Hq.
      assert (0 < 2 ^ e2) by (apply Z.pow_pos_nonneg; lia).
      apply (Z.mul_le_mono_pos_r _ _ P); [exact HP | ]. lia.
    + rewrite Z.shiftl_div_pow2 by lia.
      set (Q := 2 ^ (- e2)).
      assert (HQ : 0 < Q) by (apply Z.pow_pos_nonneg; lia).
      set (R := 2 ^ (e2 - (ex - 49))) in *.
      assert (HR : 0 < R) by (apply Z.pow_pos_nonneg; lia).
      assert (HRQ : R * Q = 2 ^ 49 * P).
      { unfold R, Q, P. rewrite <- !Z.pow_add_r by lia. f_equal. lia. }
      pose proof (Z.mul_div_le (Z.pos q) Q HQ) as Hdiv.
      assert (Hd0 : 0 <= Z.pos q / Q) by (apply Z.div_pos; lia).
      apply (Z.mul_le_mono_pos_r _ _ (P * Q)); [nia | ].
      (* (q/Q) 2^49 P Q = (q/Q) Q R Q <= q R Q <= c P Q *)
      replace (Z.pos q / Q * 2 ^ 49 * (P * Q)) with (Z.pos q / Q * Q * (2 ^ 49 * P)) by ring.
      rewrite <- HRQ.
      assert (Z.pos q / Q * Q * (R * Q) <= Z.pos q * (R * Q)) by nia.
      assert (Z.pos q * R * Q <= c * P * Q) by nia.
      lia.
Qed.

(** The product of a double of value at most one with ten, rounded, is at
    most ten; from the largest double under one it stays under ten. *)
Lemma mul_ten_at_most (x : spec_float) (c N D : Z) :
  at_most_ratio x N D -> 0 < N <= D ->
  2 ^ 52 <= c < 2 ^ 53 ->
  (forall p P, 0 < P -> p * D <= N * P -> 2 * (p * ten_mantissa) < (2 * c + 1) * P) ->
  exists k, Py.int_of_float (Py.mul_int x 10) = Py.Ok k /\ 0 <= k /\ k * 2 ^ 49 <= c.
Proof.
  intros Hx HND Hc Hhalf.
  unfold Py.mul_int. rewrite float_of_int_10.
  destruct x as [[ ] | | | [ ] p ex]; cbn in Hx; try contradiction.
  - exists 0. cbn. repeat split; lia.
  - destruct Hx as [Hex Hp].
    cbn [SFmul xorb].
    set (P := 2 ^ (- ex)) in *.
    assert (HP : 0 < P) by (apply Z.pow_pos_nonneg; lia).
    assert (HpP : Z.pos p <= P).
    { apply (Z.mul_le_mono_pos_r _ _ D); [lia | ]. nia. }
    assert (Hdig : Zdigits2 (c * P) = 53 + - ex).
    { unfold P. apply Zdigits2_scaled; lia. }
    assert (Hdrop : dropped (c * P) (ex + -49) = - ex).
    { unfold dropped. rewrite Hdig.
      replace (53 + - ex + (ex + -49)) with 4 by lia.
      change (fexp 4) with (-49). lia. }
    apply (int_of_float_at_most _ ex c); [lia | lia | ]. fold P.
    replace (ex - 49) with (ex + -49) by lia.
    rewrite Pos2Z.inj_mul.
    pose proof (Hhalf (Z.pos p) P HP Hp) as Hh. unfold ten_mantissa in Hh.
    apply binary_round_aux_at_most.
    + lia.
    + nia.
    + unfold on_grid. rewrite Hdrop. fold P. exists c. reflexivity.
    + apply Z.le_trans with (2 ^ 53 * P); [nia | ].
      unfold P. rewrite <- Z.pow_add_r by lia.
      apply Z.pow_le_mono_r; unfold Py.emax, Py.prec; lia.
    + intros H. exfalso. apply H. reflexivity.
    + intros _. rewrite Hdrop. fold P. lia.
Qed.

(** [int(a / b * 10)] for [0 < a < b] lies between 0 and 10. *)
Lemma int_ratio_times_10_bounds (a b : Z) :
  0 < a < b ->
  exists k, Py.int_ratio_times a b 10 = Py.Ok k /\ 0 <= k <= 10.
Proof.
  intros Hab.
  destruct (truediv_le_one a b Hab) as (x & Hdiv & Hx).
  destruct (mul_ten_at_most x ten_mantissa 1 1 Hx) as (k & Hk & Hk0 & Hk10).
  - lia.
  - unfold ten_mantissa. lia.
  - intros p P HP Hp. unfold ten_mantissa. lia.
  - exists k. unfold Py.int_ratio_times. rewrite Hdiv. cbn.
    split; [exact Hk | ]. unfold ten_mantissa in Hk10. lia.
Qed.

(** With a divisor below [2 ^ 53] the result stays under 10. *)
Lemma int_ratio_times_10_below (a b : Z) :
  0 < a < b -> b < 2 ^ 53 ->
  exists k, Py.int_ratio_times a b 10 = Py.Ok k /\ 0 <= k <= 9.
Proof.
  intros Hab Hb.
  destruct (truediv_lt_one a b Hab Hb) as (x & Hdiv & Hx).
  destruct (mul_ten_at_most x (ten_mantissa - 1) _ _ Hx) as (k & Hk & Hk0 & Hk10).
  - lia.
  - unfold ten_mantissa. lia.
  - intros p P HP Hp. unfold ten_mantissa. lia.
  - exists k. unfold Py.int_ratio_times. rewrite Hdiv. cbn.
    split; [exact Hk | ]. unfold ten_mantissa in Hk10. lia.
Qed.

End RoundFacts.

(** ** [SEOValidator.validate] *)

Module SeoFacts.
Import Py Seo.

Lemma tally_eq (t t' : tally) :
  seen_issues t = seen_issues t' -> total_points t = total_points t' ->
  max_points t = max_points t' -> t = t'.
Proof. destruct t, t'; cbn; intros; subst; reflexivity. Qed.

Ltac step :=
  cbn [mbind result_bind bind total_points seen_issues max_points add_points
       add_max append_issue start credit outcome_of fst snd].

Ltac tally_crush :=
  apply tally_eq; step;
  rewrite ?app_nil_r, ?app_nil_l; try reflexivity; try lia.

Lemma check_title_credit (title : string) (t : tally) :
  check_title title t = credit 20 (title_outcome title) t.
Proof.
  unfold title_outcome, check_title, outcome_of.
  destruct ((TITLE_MIN_LEN <=? len title) && (len title <=? TITLE_MAX_LEN));
    [ | destruct (len title >? 0)]; tally_crush.
Qed.

Lemma check_meta_credit (meta_description : string) (t : tally) :
  check_meta meta_description t = credit 20 (meta_outcome meta_description) t.
Proof.
  unfold meta_outcome, check_meta, outcome_of.
  destruct ((META_MIN_LEN <=? len meta_description)
            && (len meta_description <=? META_MAX_LEN));
    [ | destruct (len meta_description >? 0)]; tally_crush.
Qed.

Lemma check_h2_credit (body : string) (t : tally) :
  check_h2 body t = credit 20 (h2_outcome body) t.
Proof.
  unfold h2_outcome, check_h2, outcome_of.
  destruct (count_line_prefix "## " true body >=? MIN_H2_COUNT); tally_crush.
Qed.

Lemma check_link_credit (body : string) (t : tally) :
  check_link body t = credit 10 (link_outcome body) t.
Proof.
  unfold link_outcome, check_link, outcome_of.
  destruct (contains link_placeholder body); tally_crush.
Qed.

Lemma check_words_credit (body : string) (t : tally) :
  check_words body t = o ← words_outcome body; Ok (credit 20 o t).
Proof.
  unfold words_outcome, check_words, outcome_of.
  destruct (split_len body >=? MIN_WORD_COUNT); step.
  - f_equal. tally_crush.
  - destruct (int_ratio_times (split_len body) MIN_WORD_COUNT 15); step;
      [f_equal; tally_crush | reflexivity].
Qed.

Lemma check_keywords_credit (body : string) (keywords : option (list string))
    (t : tally) :
  check_keywords body keywords t
  = o ← keywords_outcome body keywords; Ok (credit 10 o t).
Proof.
  unfold keywords_outcome, check_keywords, outcome_of.
  destruct keywords as [[ | kw kws] | ]; step;
    try (f_equal; tally_crush).
  set (n := Z.of_nat (length (kw :: kws))).
  set (found := Z.of_nat (length (filter _ (kw :: kws)))).
  destruct (found =? n); step; [f_equal; tally_crush | ].
  destruct (found >? 0); step; [ | f_equal; tally_crush].
  destruct (int_ratio_times found n 10); step;
    [f_equal; tally_crush | reflexivity].
Qed.


(** *** The two ratios that are evaluated on a bounded range *)

Lemma forallb_below (P : Z -> bool) (n : nat) :
  forallb P (map Z.of_nat (seq 0 n)) = true ->
  forall z, 0 <= z < Z.of_nat n -> P z = true.
Proof.
  intros H z Hz. rewrite forallb_forall in H. apply H.
  apply in_map_iff. exists (Z.to_nat z). split; [lia | ].
  apply in_seq. lia.
Qed.

(** Below 500 words the rounded [word_count / 500 * 15] truncates to the
    exact integer quotient. *)
Lemma words_ratio (w : Z) :
  0 <= w < 500 -> int_ratio_times w MIN_WORD_COUNT 15 = Ok (w * 15 / 500).
Proof.
  intros Hw.
  pose proof (forallb_below
    (fun w => match int_ratio_times w MIN_WORD_COUNT 15 with
              | Ok v => v =? w * 15 / 500
              | Raise _ => false
              end) 500 ltac:(vm_compute; reflexivity) w ltac:(lia)) as H.
  cbv beta in H.
  destruct (int_ratio_times w MIN_WORD_COUNT 15); [ | discriminate].
  f_equal. now apply Z.eqb_eq.
Qed.

Lemma score_ratio (t : Z) :
  0 <= t <= 100 -> int_ratio_times t 100 100 = Ok (score_of_total t).
Proof.
  intros Ht.
  pose proof (forallb_below
    (fun t => match int_ratio_times t 100 100 with
              | Ok v => v =? score_of_total t
              | Raise _ => false
              end) 101 ltac:(vm_compute; reflexivity) t ltac:(lia)) as H.
  cbv beta in H.
  destruct (int_ratio_times t 100 100); [ | discriminate].
  f_equal. now apply Z.eqb_eq.
Qed.

(** *** Counts are natural numbers *)

Lemma count_words_from_nonneg (s : string) (in_word : bool) :
  0 <= count_words_from in_word s.
Proof.
  revert in_word. induction s as [ | c s IH]; intros in_word; cbn [count_words_from].
  - lia.
  - destruct (isspace c); [apply IH | ].
    pose proof (IH true). destruct in_word; lia.
Qed.

Lemma split_len_nonneg (s : string) : 0 <= split_len s.
Proof. apply count_words_from_nonneg. Qed.

Lemma count_line_prefix_nonneg (p s : string) (bol : bool) :
  0 <= count_line_prefix p bol s.
Proof.
  revert bol. induction s as [ | c s IH]; intros bol; cbn [count_line_prefix].
  - lia.
  - pose proof (IH (Ascii.eqb c newline)).
    destruct (bol && startswith p (String c s)); lia.
Qed.

(** *** What one check can award *)

Lemma title_outcome_shape (title : string) :
  full_or_one_issue 20 (title_outcome title) /\ 0 <= (title_outcome title).1.
Proof.
  unfold title_outcome, check_title, full_or_one_issue.
  destruct ((TITLE_MIN_LEN <=? len title) && (len title <=? TITLE_MAX_LEN));
    [ | destruct (len title >? 0)]; step;
    (split; [ | lia]); [left | right | right]; (split; [lia | eauto]).
Qed.

Lemma meta_outcome_shape (meta_description : string) :
  full_or_one_issue 20 (meta_outcome meta_description)
  /\ 0 <= (meta_outcome meta_description).1.
Proof.
  unfold meta_outcome, check_meta, full_or_one_issue.
  destruct ((META_MIN_LEN <=? len meta_description)
            && (len meta_description <=? META_MAX_LEN));
    [ | destruct (len meta_description >? 0)]; step;
    (split; [ | lia]); [left | right | right]; (split; [lia | eauto]).
Qed.

Lemma h2_outcome_shape (body : string) :
  full_or_one_issue 20 (h2_outcome body) /\ 0 <= (h2_outcome body).1.
Proof.
  unfold h2_outcome, check_h2, full_or_one_issue.
  pose proof (count_line_prefix_nonneg "## " body true) as Hn.
  destruct (count_line_prefix "## " true body >=? MIN_H2_COUNT); step;
    (split; [ | lia]); [left | right]; (split; [lia | eauto]).
Qed.

Lemma link_outcome_shape (body : string) :
  full_or_one_issue 10 (link_outcome body) /\ 0 <= (link_outcome body).1.
Proof.
  unfold link_outcome, check_link, full_or_one_issue.
  destruct (contains link_placeholder body); step;
    (split; [ | lia]); [left | right]; (split; [lia | eauto]).
Qed.

Lemma words_outcome_shape (body : string) :
  exists o, words_outcome body = Ok o
            /\ full_or_one_issue 20 o /\ 0 <= o.1.
Proof.
  unfold words_outcome, check_words, full_or_one_issue.
  pose proof (split_len_nonneg body) as Hn.
  destruct (split_len body >=? MIN_WORD_COUNT) eqn:Hw; step.
  - eexists. split; [reflexivity | ]. step. split; [left; split; [lia | reflexivity] | lia].
  - assert (Hlt : split_len body < 500) by (unfold MIN_WORD_COUNT in Hw; lia).
    rewrite words_ratio by lia. step.
    eexists. split; [reflexivity | ]. step.
    assert (0 <= split_len body * 15 / 500) by (apply Z.div_pos; lia).
    split; [right; split; [lia | eauto] | lia].
Qed.


Lemma keywords_outcome_shape (body : string) (keywords : option (list string)) :
  exists o, keywords_outcome body keywords = Ok o
            /\ 0 <= o.1 <= 10
            /\ ((o.1 = 10 /\ o.2 = [])
                \/ ((exists msg, o.2 = [msg])
                    /\ (keyword_count keywords < 2 ^ 53 -> o.1 < 10))).
Proof.
  unfold keywords_outcome, check_keywords, keyword_count.
  destruct keywords as [[ | kw kws] | ]; step;
    try (eexists; split; [reflexivity | ]; step; split; [lia | left; split; [lia | reflexivity]]).
  set (kwl := kw :: kws).
  set (found := Z.of_nat (length (filter _ kwl))).
  assert (Hn : 0 < Z.of_nat (length kwl)) by (unfold kwl; simpl length; lia).
  assert (Hf : 0 <= found <= Z.of_nat (length kwl)).
  { unfold found. split; [lia | ]. apply Nat2Z.inj_le, length_filter. }
  set (n := Z.of_nat (length kwl)) in *.
  destruct (found =? n) eqn:Heq; step.
  { eexists; split; [reflexivity | ]; step. split; [lia | left; split; [lia | reflexivity]]. }
  destruct (found >? 0) eqn:Hpos; step.
  - assert (Hfn : 0 < found < n) by lia.
    destruct (Z_lt_dec n (2 ^ 53)) as [Hsmall | Hbig].
    + destruct (RoundFacts.int_ratio_times_10_below found n Hfn Hsmall) as (k & -> & Hk).
      step. eexists; split; [reflexivity | ]; step.
      split; [lia | right; split; [eauto | lia]].
    + destruct (RoundFacts.int_ratio_times_10_bounds found n Hfn) as (k & -> & Hk).
      step. eexists; split; [reflexivity | ]; step.
      split; [lia | right; split; [eauto | lia]].
  - eexists; split; [reflexivity | ]; step.
    split; [lia | right; split; [eauto | lia]].
Qed.


(** *** The six checks together *)

Lemma run_checks_credit (title meta_description body : string)
    (keywords : option (list string)) :
  exists o4 o5,
    words_outcome body = Ok o4
    /\ keywords_outcome body keywords = Ok o5
    /\ run_checks title meta_description body keywords
       = Ok (credit 10 (link_outcome body)
               (credit 10 o5
                  (credit 20 o4
                     (credit 20 (h2_outcome body)
                        (credit 20 (meta_outcome meta_description)
                           (credit 20 (title_outcome title) start)))))).
Proof.
  destruct (words_outcome_shape body) as (o4 & H4 & _).
  destruct (keywords_outcome_shape body keywords) as (o5 & H5 & _).
  exists o4, o5. split; [exact H4 | split; [exact H5 | ]].
  unfold run_checks.
  rewrite check_title_credit, check_meta_credit, check_h2_credit.
  rewrite check_words_credit, H4. step.
  rewrite check_keywords_credit, H5. step.
  now rewrite check_link_credit.
Qed.

Lemma score_of_total_range (t : Z) :
  0 <= t <= 100 -> 0 <= score_of_total t <= 100.
Proof.
  intros Ht. unfold score_of_total.
  destruct ((t =? 29) || (t =? 57) || (t =? 58)) eqn:H; [ | lia].
  split; [ | lia].
  destruct (Z.eqb_spec t 29); [lia | ]. destruct (Z.eqb_spec t 57); [lia | ].
  destruct (Z.eqb_spec t 58); [lia | discriminate].
Qed.

Lemma score_of_total_full (t : Z) : score_of_total t = 100 -> t = 100.
Proof.
  unfold score_of_total.
  destruct (Z.eqb_spec t 29); [cbn; lia | ]. destruct (Z.eqb_spec t 57); [cbn; lia | ].
  destruct (Z.eqb_spec t 58); cbn; lia.
Qed.

(** The result of [validate] in terms of the six outcomes: the maximum is
    always 100, the issues are the outcomes' messages in check order, and
    the score is read off the total. *)
Lemma validate_outcomes (title meta_description body : string)
    (keywords : option (list string)) :
  exists o4 o5 r,
    words_outcome body = Ok o4
    /\ keywords_outcome body keywords = Ok o5
    /\ validate title meta_description body keywords = Ok r
    /\ issues r = ((title_outcome title).2 ++ (meta_outcome meta_description).2
                   ++ (h2_outcome body).2 ++ o4.2 ++ o5.2
                   ++ (link_outcome body).2)%list
    /\ score r = score_of_total
                   ((title_outcome title).1 + (meta_outcome meta_description).1
                    + (h2_outcome body).1 + o4.1 + o5.1 + (link_outcome body).1)
    /\ passed r = (score r >=? PASS_THRESHOLD).
Proof.
  destruct (run_checks_credit title meta_description body keywords)
    as (o4 & o5 & H4 & H5 & Hrun).
  destruct (title_outcome_shape title) as [S1 P1].
  destruct (meta_outcome_shape meta_description) as [S2 P2].
  destruct (h2_outcome_shape body) as [S3 P3].
  destruct (words_outcome_shape body) as (o4' & H4' & S4 & P4).
  destruct (keywords_outcome_shape body keywords) as (o5' & H5' & P5 & S5).
  rewrite H4 in H4'. injection H4' as <-. rewrite H5 in H5'. injection H5' as <-.
  destruct (link_outcome_shape body) as [S6 P6].
  set (tp := (title_outcome title).1 + (meta_outcome meta_description).1
             + (h2_outcome body).1 + o4.1 + o5.1 + (link_outcome body).1).
  assert (Htp : 0 <= tp <= 100).
  { unfold full_or_one_issue in *. unfold tp. lia. }
  exists o4, o5.
  eexists. split; [exact H4 | split; [exact H5 | ]].
  split.
  - unfold validate. rewrite Hrun. step. unfold final_score. step.
    replace (0 + 20 + 20 + 20 + 20 + 10 + 10 >? 0) with true by reflexivity.
    replace (0 + 20 + 20 + 20 + 20 + 10 + 10) with 100 by reflexivity.
    replace (0 + (title_outcome title).1 + (meta_outcome meta_description).1
             + (h2_outcome body).1 + o4.1 + o5.1 + (link_outcome body).1)
      with tp by (unfold tp; lia).
    rewrite score_ratio by exact Htp. step. reflexivity.
  - cbn [issues score passed]. rewrite !app_nil_l, <- !app_assoc.
    split; [reflexivity | split; reflexivity].
Qed.


(** *** The claims about [validate] *)

(** C1 (failing input): on an article with a well-sized title and meta
    description, one H2 heading, 242 words, a keyword that does not occur
    and no link placeholder, the six checks award 20 + 20 + 10 + 7 + 0 + 0 =
    57 points out of 100, and [validate] returns the score 56, not 57. *)
Theorem score_below_total_points :
  exists t r,
    run_checks sample_title sample_meta one_heading_body absent_keywords = Ok t
    /\ total_points t = 57 /\ max_points t = 100
    /\ validate sample_title sample_meta one_heading_body absent_keywords = Ok r
    /\ score r = 56.
Proof.
  assert (Hrun : exists t,
             run_checks sample_title sample_meta one_heading_body absent_keywords = Ok t
             /\ total_points t = 57 /\ max_points t = 100).
  { eexists. split; [vm_compute; reflexivity | split; reflexivity]. }
  destruct Hrun as (t & Hrun & Htot & Hmax).
  exists t. eexists. split; [exact Hrun | split; [exact Htot | split; [exact Hmax | ]]].
  unfold validate. rewrite Hrun. step. unfold final_score. rewrite Htot, Hmax.
  split; [vm_compute; reflexivity | reflexivity].
Qed.

Lemma validate_reads_total (title meta_description body : string)
    (keywords : option (list string)) :
  exists t r,
    run_checks title meta_description body keywords = Ok t
    /\ max_points t = 100 /\ 0 <= total_points t <= 100
    /\ validate title meta_description body keywords = Ok r
    /\ score r = score_of_total (total_points t).
Proof.
  destruct (run_checks_credit title meta_description body keywords)
    as (o4 & o5 & H4 & H5 & Hrun).
  destruct (validate_outcomes title meta_description body keywords)
    as (o4' & o5' & r & H4' & H5' & Hv & _ & Hs & _).
  rewrite H4 in H4'. injection H4' as <-. rewrite H5 in H5'. injection H5' as <-.
  destruct (title_outcome_shape title) as [S1 P1].
  destruct (meta_outcome_shape meta_description) as [S2 P2].
  destruct (h2_outcome_shape body) as [S3 P3].
  destruct (words_outcome_shape body) as (o4' & H4' & S4 & P4).
  destruct (keywords_outcome_shape body keywords) as (o5' & H5' & P5 & S5).
  rewrite H4 in H4'. injection H4' as <-. rewrite H5 in H5'. injection H5' as <-.
  destruct (link_outcome_shape body) as [S6 P6].
  eexists. exists r. split; [exact Hrun | ]. step.
  split; [reflexivity | ].
  split; [unfold full_or_one_issue in *; lia | ].
  split; [exact Hv | ]. rewrite Hs. f_equal; lia.
Qed.

(** X1: for every input the maximum is 100, the total lies between 0 and
    100, and the score is the total, except at the totals 29, 57 and 58,
    where it is one less. *)
Theorem score_is_total_but_three (title meta_description body : string)
    (keywords : option (list string)) :
  exists t r,
    run_checks title meta_description body keywords = Ok t
    /\ max_points t = 100 /\ 0 <= total_points t <= 100
    /\ validate title meta_description body keywords = Ok r
    /\ score r = score_of_total (total_points t).
Proof. apply validate_reads_total. Qed.

(** C3: for every title, meta description, body and keyword list,
    [validate] returns a result whose score lies between 0 and 100 and
    whose [passed] flag is exactly [score >= 70]. *)
Theorem validate_score_range (title meta_description body : string)
    (keywords : option (list string)) :
  exists r,
    validate title meta_description body keywords = Ok r
    /\ 0 <= score r <= 100
    /\ passed r = (score r >=? 70)
    /\ (passed r = true <-> 70 <= score r).
Proof.
  destruct (validate_reads_total title meta_description body keywords)
    as (t & r & _ & _ & Ht & Hv & Hs).
  destruct (validate_outcomes title meta_description body keywords)
    as (_ & _ & r' & _ & _ & Hv' & _ & _ & Hp).
  rewrite Hv in Hv'. injection Hv' as <-.
  exists r. split; [exact Hv | ].
  split; [rewrite Hs; apply score_of_total_range; exact Ht | ].
  split; [exact Hp | ]. rewrite Hp. unfold PASS_THRESHOLD. lia.
Qed.

(** C4: when fewer than 2^53 keywords are given, the issues of the result
    are the messages of the six checks in the order title, meta
    description, H2 headings, word count, keywords, link placeholder; each
    check leaves no message when it scored its full weight and exactly one
    message when it scored less; and the list is empty exactly when all six
    checks scored their full weight. *)
Theorem issues_follow_checks (title meta_description body : string)
    (keywords : option (list string)) :
  keyword_count keywords < 2 ^ 53 ->
  exists o4 o5 r,
    words_outcome body = Ok o4
    /\ keywords_outcome body keywords = Ok o5
    /\ validate title meta_description body keywords = Ok r
    /\ issues r = ((title_outcome title).2 ++ (meta_outcome meta_description).2
                   ++ (h2_outcome body).2 ++ o4.2 ++ o5.2
                   ++ (link_outcome body).2)%list
    /\ full_or_one_issue 20 (title_outcome title)
    /\ full_or_one_issue 20 (meta_outcome meta_description)
    /\ full_or_one_issue 20 (h2_outcome body)
    /\ full_or_one_issue 20 o4
    /\ full_or_one_issue 10 o5
    /\ full_or_one_issue 10 (link_outcome body)
    /\ (issues r = []
        <-> (title_outcome title).1 = 20 /\ (meta_outcome meta_description).1 = 20
            /\ (h2_outcome body).1 = 20 /\ o4.1 = 20 /\ o5.1 = 10
            /\ (link_outcome body).1 = 10).
Proof.
  intros Hcount.
  destruct (validate_outcomes title meta_description body keywords)
    as (o4 & o5 & r & H4 & H5 & Hv & Hi & _ & _).
  destruct (title_outcome_shape title) as [S1 _].
  destruct (meta_outcome_shape meta_description) as [S2 _].
  destruct (h2_outcome_shape body) as [S3 _].
  destruct (words_outcome_shape body) as (o4' & H4' & S4 & _).
  destruct (keywords_outcome_shape body keywords) as (o5' & H5' & P5 & S5').
  rewrite H4 in H4'. injection H4' as <-. rewrite H5 in H5'. injection H5' as <-.
  destruct (link_outcome_shape body) as [S6 _].
  assert (S5 : full_or_one_issue 10 o5).
  { destruct S5' as [Hfull | [Hmsg Hlt]]; [left; exact Hfull | right].
    split; [apply Hlt, Hcount | exact Hmsg]. }
  clear S5'.
  exists o4, o5, r.
  repeat (split; [assumption | ]).
  rewrite Hi. unfold full_or_one_issue in *.
  split.
  - intros Hnil.
    repeat match goal with
           | H : (_ ++ _)%list = [] |- _ => apply app_eq_nil in H; destruct H
           end.
    repeat match goal with
           | H : _ \/ _ |- _ => destruct H as [[? ?] | [? [? ?]]]
           end; try congruence.
    repeat split; assumption.
  - intros (E1 & E2 & E3 & E4 & E5 & E6).
    repeat match goal with
           | H : _ \/ _ |- _ => destruct H as [[? ->] | [? _]]; [ | lia]
           end.
    reflexivity.
Qed.

Lemma issues_follow_checks_witness :
  exists o4 o5 r,
    words_outcome "one two" = Ok o4
    /\ keywords_outcome "one two" (Some ["one"; "zzz"]) = Ok o5
    /\ validate "Short" "" "one two" (Some ["one"; "zzz"]) = Ok r
    /\ issues r = ((title_outcome "Short").2 ++ (meta_outcome "").2
                   ++ (h2_outcome "one two").2 ++ o4.2 ++ o5.2
                   ++ (link_outcome "one two").2)%list
    /\ full_or_one_issue 20 (title_outcome "Short")
    /\ full_or_one_issue 20 (meta_outcome "")
    /\ full_or_one_issue 20 (h2_outcome "one two")
    /\ full_or_one_issue 20 o4
    /\ full_or_one_issue 10 o5
    /\ full_or_one_issue 10 (link_outcome "one two")
    /\ (issues r = []
        <-> (title_outcome "Short").1 = 20 /\ (meta_outcome "").1 = 20
            /\ (h2_outcome "one two").1 = 20 /\ o4.1 = 20 /\ o5.1 = 10
            /\ (link_outcome "one two").1 = 10).
Proof.
  apply (issues_follow_checks "Short" "" "one two" (Some ["one"; "zzz"])).
  vm_compute. reflexivity.
Defined.

(** *** Criteria that are not met *)

Lemma title_outcome_unmet (title : string) :
  ~ (30 <= len title <= 70) ->
  title_outcome title
  = (if len title >? 0 then 5 else 0,
     ["Title length is " +:+ str_of_int (len title)
      +:+ " chars (target: 30-70)"]).
Proof.
  intros Hout. unfold title_outcome, check_title, TITLE_MIN_LEN, TITLE_MAX_LEN.
  destruct (Z.leb_spec 30 (len title)), (Z.leb_spec (len title) 70);
    try lia; cbn [andb]; destruct (len title >? 0); reflexivity.
Qed.

Lemma meta_outcome_unmet (meta_description : string) :
  ~ (120 <= len meta_description <= 170) ->
  meta_outcome meta_description
  = (if len meta_description >? 0 then 5 else 0,
     ["Meta description length is " +:+ str_of_int (len meta_description)
      +:+ " chars (target: 120-170)"]).
Proof.
  intros Hout. unfold meta_outcome, check_meta, META_MIN_LEN, META_MAX_LEN.
  destruct (Z.leb_spec 120 (len meta_description)),
           (Z.leb_spec (len meta_description) 170);
    try lia; cbn [andb]; destruct (len meta_description >? 0); reflexivity.
Qed.

Lemma h2_outcome_unmet (body : string) :
  count_line_prefix "## " true body < 2 ->
  h2_outcome body
  = (count_line_prefix "## " true body * 10,
     ["Found " +:+ str_of_int (count_line_prefix "## " true body)
      +:+ " H2 headings (minimum: 2)"]).
Proof.
  intros Hlt. unfold h2_outcome, check_h2, MIN_H2_COUNT.
  destruct (Z.geb_spec (count_line_prefix "## " true body) 2); [lia | ].
  step. rewrite Z.min_l by lia. reflexivity.
Qed.

Lemma words_outcome_unmet (body : string) :
  split_len body < 500 ->
  words_outcome body
  = Ok (split_len body * 15 / 500,
        ["Word count is " +:+ str_of_int (split_len body)
         +:+ " (minimum: 500)"]).
Proof.
  intros Hlt. pose proof (split_len_nonneg body) as Hn.
  unfold words_outcome, check_words, MIN_WORD_COUNT.
  destruct (Z.geb_spec (split_len body) 500); [lia | ].
  fold MIN_WORD_COUNT. rewrite words_ratio by lia. step.
  assert (split_len body * 15 / 500 <= 14).
  { apply Z.lt_succ_r, Z.div_lt_upper_bound; lia. }
  rewrite Z.min_l by lia. reflexivity.
Qed.

Lemma link_outcome_unmet (body : string) :
  contains link_placeholder body = false ->
  link_outcome body = (0, ["Missing {{novig_internal_link}} placeholder"]).
Proof.
  intros Hno. unfold link_outcome, check_link. rewrite Hno. reflexivity.
Qed.

Lemma filter_misses {A : Type} (P : A -> Prop) `{forall x, Decision (P x)}
    (l : list A) (x : A) :
  x ∈ l -> ~ P x -> (length (filter P l) < length l)%nat.
Proof.
  intros Hin Hx. induction l as [ | a l IH]; [inversion Hin | ].
  pose proof (length_filter P l) as Hle.
  rewrite filter_cons. apply elem_of_cons in Hin as [<- | Hin].
  - rewrite decide_False by exact Hx. cbn [length]. lia.
  - specialize (IH Hin). destruct (decide (P a)); cbn [length]; lia.
Qed.

Lemma filter_none {A : Type} (P : A -> Prop) `{forall x, Decision (P x)}
    (l : list A) :
  (forall x, x ∈ l -> ~ P x) -> filter P l = [].
Proof.
  intros Hall. induction l as [ | a l IH]; [reflexivity | ].
  rewrite filter_cons, decide_False by (apply Hall; left).
  apply IH. intros x Hx. apply Hall. now right.
Qed.

Lemma filter_some {A : Type} (P : A -> Prop) `{forall x, Decision (P x)}
    (l : list A) (x : A) :
  x ∈ l -> P x -> (0 < length (filter P l))%nat.
Proof.
  intros Hin Hx.
  assert (Hf : x ∈ filter P l) by (apply list_elem_of_filter; split; assumption).
  destruct (filter P l); [inversion Hf | cbn [length]; lia].
Qed.

(** The keyword check when a keyword is missing from the body. *)
Lemma keywords_outcome_unmet (body : string) (kws : list string) (kw : string) :
  kw ∈ kws -> kw_in (lower body) kw = false ->
  exists p msg,
    keywords_outcome body (Some kws) = Ok (p, [msg])
    /\ 0 <= p <= 10
    /\ (Z.of_nat (length kws) < 2 ^ 53 -> p <= 9)
    /\ ((forall k, k ∈ kws -> kw_in (lower body) k = false) ->
        p = 0 /\ msg = "No target keywords found in body")
    /\ ((exists k, k ∈ kws /\ kw_in (lower body) k = true) ->
        msg = "Missing keywords: "
              +:+ join ", " (filter (fun k => kw_in (lower body) k = false) kws)).
Proof.
  intros Hin Hmiss.
  assert (Hlt : (length (filter (fun k => kw_in (lower body) k = true) kws)
                 < length kws)%nat).
  { apply (filter_misses _ kws kw Hin). rewrite Hmiss. discriminate. }
  unfold keywords_outcome, check_keywords.
  destruct kws as [ | k0 kws0]; [inversion Hin | ].
  set (kwl := k0 :: kws0) in *.
  set (found := Z.of_nat (length (filter _ kwl))) in *.
  set (n := Z.of_nat (length kwl)) in *.
  assert (Hfn : 0 <= found < n) by (unfold found, n; lia).
  destruct (Z.eqb_spec found n) as [ | _]; [lia | ].
  destruct (Z.gtb_spec found 0) as [Hpos | Hzero].
  - assert (Hsome : exists k, k ∈ kwl /\ kw_in (lower body) k = true).
    { destruct (filter (fun k => kw_in (lower body) k = true) kwl)
        as [ | k l] eqn:Hf; [unfold found in Hpos; try rewrite Hf in Hpos; cbn in Hpos; lia | ].
      exists k.
      assert (Hk : k ∈ filter (fun k => kw_in (lower body) k = true) kwl)
        by (rewrite Hf; left).
      apply list_elem_of_filter in Hk. tauto. }
    assert (Hb : exists p, int_ratio_times found n 10 = Ok p /\ 0 <= p <= 10
                           /\ (n < 2 ^ 53 -> p <= 9)).
    { destruct (Z_lt_dec n (2 ^ 53)) as [Hsmall | Hbig].
      - destruct (RoundFacts.int_ratio_times_10_below found n ltac:(lia) Hsmall)
          as (p & Hp & Hk). exists p. split; [exact Hp | split; [lia | lia]].
      - destruct (RoundFacts.int_ratio_times_10_bounds found n ltac:(lia))
          as (p & Hp & Hk). exists p. split; [exact Hp | split; [lia | lia]]. }
    destruct Hb as (p & Hp & Hrange & Hsmall).
    rewrite Hp. step. exists p. eexists. split; [reflexivity | ].
    split; [lia | ]. split; [exact Hsmall | ]. split.
    + intros Hnone. destruct Hsome as (k & Hk & Hfound).
      rewrite (Hnone k Hk) in Hfound. discriminate.
    + intros _. reflexivity.
  - step. exists 0. eexists. split; [reflexivity | ].
    split; [lia | ]. split; [lia | ]. split.
    + intros _. split; reflexivity.
    + intros (k & Hk & Hfound).
      pose proof (filter_some (fun k => kw_in (lower body) k = true) kwl k Hk Hfound).
      unfold found in Hzero. lia.
Qed.

Lemma lower_empty (s : string) : lower s = "" -> s = "".
Proof. destruct s; [reflexivity | discriminate]. Qed.

(** Only the empty keyword occurs in an empty body. *)
Lemma kw_in_empty_body (kw : string) : kw <> "" -> kw_in (lower "") kw = false.
Proof.
  intros Hne. unfold kw_in. cbn [lower contains].
  destruct (lower kw) eqn:Hl; [now apply lower_empty in Hl | reflexivity].
Qed.

Lemma score_of_total_le (t : Z) : score_of_total t <= t.
Proof.
  unfold score_of_total. destruct ((t =? 29) || (t =? 57) || (t =? 58)); lia.
Qed.

(** C6: [validate] returns a result on every input, empty strings, an empty
    keyword list and an omitted keyword list included, and a poor input shows
    in the result, not in an exception.  A score below 100 comes with at
    least one issue.  Each criterion that is not met leaves its own message
    in the issues and less than its weight in the points: an out-of-range
    title or meta description earns 5 points of 20 (0 when empty) and caps
    the score at 85; fewer than two H2 headings earn 10 points each and cap
    it at 90; fewer than 500 words earn the quotient of 15 times the count
    by 500, at most 14, and cap it at 94; a keyword missing from the body
    costs all 10 keyword points when no keyword occurs, and at least one
    point when fewer than 2^53 keywords are given, with the missing keywords
    listed; a missing link placeholder earns 0 points and caps the score at
    90.  The article of three empty strings scores 10 with five issues when
    no keyword is asked for, and 0 with six issues when non-empty keywords
    are; it never passes. *)
Theorem validate_total (title meta_description body : string)
    (keywords : option (list string)) :
  exists o4 o5 r,
    words_outcome body = Ok o4
    /\ keywords_outcome body keywords = Ok o5
    /\ validate title meta_description body keywords = Ok r
    /\ (score r < 100 -> issues r <> [])
    /\ score r <= (title_outcome title).1 + (meta_outcome meta_description).1
                  + (h2_outcome body).1 + o4.1 + o5.1 + (link_outcome body).1
    /\ (~ (30 <= len title <= 70) ->
        ("Title length is " +:+ str_of_int (len title)
         +:+ " chars (target: 30-70)") ∈ issues r
        /\ (title_outcome title).1 = (if len title >? 0 then 5 else 0)
        /\ score r <= 85)
    /\ (~ (120 <= len meta_description <= 170) ->
        ("Meta description length is " +:+ str_of_int (len meta_description)
         +:+ " chars (target: 120-170)") ∈ issues r
        /\ (meta_outcome meta_description).1
           = (if len meta_description >? 0 then 5 else 0)
        /\ score r <= 85)
    /\ (count_line_prefix "## " true body < 2 ->
        ("Found " +:+ str_of_int (count_line_prefix "## " true body)
         +:+ " H2 headings (minimum: 2)") ∈ issues r
        /\ (h2_outcome body).1 = count_line_prefix "## " true body * 10
        /\ score r <= 90)
    /\ (split_len body < 500 ->
        ("Word count is " +:+ str_of_int (split_len body)
         +:+ " (minimum: 500)") ∈ issues r
        /\ o4.1 = split_len body * 15 / 500
        /\ o4.1 <= 14
        /\ score r <= 94)
    /\ (forall kws kw,
          keywords = Some kws -> kw ∈ kws -> kw_in (lower body) kw = false ->
          exists msg,
            o5.2 = [msg] /\ msg ∈ issues r
            /\ (keyword_count keywords < 2 ^ 53 -> o5.1 <= 9 /\ score r <= 99)
            /\ ((forall k, k ∈ kws -> kw_in (lower body) k = false) ->
                msg = "No target keywords found in body"
                /\ o5.1 = 0 /\ score r <= 90)
            /\ ((exists k, k ∈ kws /\ kw_in (lower body) k = true) ->
                msg = "Missing keywords: "
                      +:+ join ", "
                            (filter (fun k => kw_in (lower body) k = false) kws)))
    /\ (contains link_placeholder body = false ->
        "Missing {{novig_internal_link}} placeholder" ∈ issues r
        /\ (link_outcome body).1 = 0
        /\ score r <= 90)
    /\ (title = "" -> meta_description = "" -> body = "" ->
        passed r = false
        /\ (keyword_count keywords = 0 ->
            score r = 10 /\ length (issues r) = 5%nat)
        /\ (forall kws,
              keywords = Some kws -> kws <> [] ->
              (forall k, k ∈ kws -> k <> "") ->
              score r = 0 /\ length (issues r) = 6%nat)).
Proof.
  destruct (validate_outcomes title meta_description body keywords)
    as (o4 & o5 & r & H4 & H5 & Hv & Hi & Hs & Hp).
  destruct (title_outcome_shape title) as [S1 P1].
  destruct (meta_outcome_shape meta_description) as [S2 P2].
  destruct (h2_outcome_shape body) as [S3 P3].
  destruct (words_outcome_shape body) as (o4' & H4' & S4 & P4).
  destruct (keywords_outcome_shape body keywords) as (o5' & H5' & P5 & S5).
  rewrite H4 in H4'. injection H4' as <-. rewrite H5 in H5'. injection H5' as <-.
  destruct (link_outcome_shape body) as [S6 P6].
  set (tp := (title_outcome title).1 + (meta_outcome meta_description).1
             + (h2_outcome body).1 + o4.1 + o5.1 + (link_outcome body).1) in *.
  assert (Hle : score r <= tp) by (rewrite Hs; apply score_of_total_le).
  assert (B1 : (title_outcome title).1 <= 20)
    by (destruct S1 as [[? _] | [? _]]; lia).
  assert (B2 : (meta_outcome meta_description).1 <= 20)
    by (destruct S2 as [[? _] | [? _]]; lia).
  assert (B3 : (h2_outcome body).1 <= 20)
    by (destruct S3 as [[? _] | [? _]]; lia).
  assert (B4 : o4.1 <= 20) by (destruct S4 as [[? _] | [? _]]; lia).
  assert (B6 : (link_outcome body).1 <= 10)
    by (destruct S6 as [[? _] | [? _]]; lia).
  exists o4, o5, r.
  split; [exact H4 | ]. split; [exact H5 | ]. split; [exact Hv | ].
  split.
  { intros Hlow Hnil. rewrite Hi in Hnil. rewrite Hs in Hlow.
    repeat match goal with
           | H : (_ ++ _)%list = [] |- _ => apply app_eq_nil in H; destruct H
           end.
    unfold full_or_one_issue in *.
    destruct S1 as [[E1 _] | [_ [? ?]]]; [ | congruence].
    destruct S2 as [[E2 _] | [_ [? ?]]]; [ | congruence].
    destruct S3 as [[E3 _] | [_ [? ?]]]; [ | congruence].
    destruct S4 as [[E4 _] | [_ [? ?]]]; [ | congruence].
    destruct S5 as [[E5 _] | [[? ?] _]]; [ | congruence].
    destruct S6 as [[E6 _] | [_ [? ?]]]; [ | congruence].
    unfold tp in Hlow.
    rewrite E1, E2, E3, E4, E5, E6 in Hlow. vm_compute in Hlow. discriminate. }
  split; [exact Hle | ].
  split.
  { intros Hout. pose proof (title_outcome_unmet title Hout) as E.
    rewrite Hi. unfold tp in Hle. rewrite E in *. cbn [fst snd] in *.
    split; [apply elem_of_app; left; left | ].
    split; [reflexivity | ]. destruct (len title >? 0); lia. }
  split.
  { intros Hout. pose proof (meta_outcome_unmet meta_description Hout) as E.
    rewrite Hi. unfold tp in Hle. rewrite E in *. cbn [fst snd] in *.
    split; [apply elem_of_app; right; apply elem_of_app; left; left | ].
    split; [reflexivity | ]. destruct (len meta_description >? 0); lia. }
  split.
  { intros Hlt. pose proof (h2_outcome_unmet body Hlt) as E.
    rewrite Hi. unfold tp in Hle. rewrite E in *. cbn [fst snd] in *.
    split; [do 2 (apply elem_of_app; right); apply elem_of_app; left; left | ].
    split; [reflexivity | lia]. }
  split.
  { intros Hlt. pose proof (words_outcome_unmet body Hlt) as E.
    rewrite H4 in E. injection E as ->.
    pose proof (split_len_nonneg body) as Hn.
    assert (split_len body * 15 / 500 <= 14).
    { apply Z.lt_succ_r, Z.div_lt_upper_bound; lia. }
    rewrite Hi. unfold tp in Hle. cbn [fst snd] in *.
    split; [do 3 (apply elem_of_app; right); apply elem_of_app; left; left | ].
    split; [reflexivity | ]. split; lia. }
  split.
  { intros kws kw -> Hin Hmiss.
    destruct (keywords_outcome_unmet body kws kw Hin Hmiss)
      as (p & msg & E & Hrange & Hsmall & Hnone & Hsome).
    rewrite H5 in E. injection E as ->.
    unfold tp in Hle. cbn [fst snd keyword_count] in *.
    exists msg. split; [reflexivity | ].
    split.
    { rewrite Hi. do 4 (apply elem_of_app; right). apply elem_of_app; left; left. }
    split; [intros Hc; specialize (Hsmall Hc); lia | ].
    split; [ | exact Hsome].
    intros Hall. destruct (Hnone Hall) as [-> ->].
    split; [reflexivity | ]. split; lia. }
  split.
  { intros Hno. pose proof (link_outcome_unmet body Hno) as E.
    rewrite Hi. unfold tp in Hle. rewrite E in *. cbn [fst snd] in *.
    split; [do 5 (apply elem_of_app; right); left | ].
    split; [reflexivity | lia]. }
  intros -> -> ->.
  assert (E4 : o4 = (0, ["Word count is 0 (minimum: 500)"])).
  { vm_compute in H4. now injection H4 as <-. }
  subst o4.
  assert (Ei : issues r
               = (["Title length is 0 chars (target: 30-70)";
                   "Meta description length is 0 chars (target: 120-170)";
                   "Found 0 H2 headings (minimum: 2)";
                   "Word count is 0 (minimum: 500)"] ++ o5.2
                  ++ ["Missing {{novig_internal_link}} placeholder"])%list).
  { rewrite Hi. reflexivity. }
  assert (Et : tp = o5.1).
  { assert (T1 : (title_outcome "").1 = 0) by reflexivity.
    assert (T2 : (meta_outcome "").1 = 0) by reflexivity.
    assert (T3 : (h2_outcome "").1 = 0) by reflexivity.
    assert (T6 : (link_outcome "").1 = 0) by reflexivity.
    unfold tp. cbn [fst]. lia. }
  split.
  { rewrite Hp. unfold PASS_THRESHOLD. lia. }
  split.
  { intros Hk0.
    assert (E5 : o5 = (10, [])).
    { destruct keywords as [[ | k l] | ]; cbn in Hk0; try lia;
        vm_compute in H5; now injection H5 as <-. }
    subst o5. rewrite Hs, Ei, Et. split; reflexivity. }
  intros kws -> Hne Hall.
  destruct kws as [ | k0 kws0]; [congruence | ].
  assert (Hmiss : forall k, k ∈ k0 :: kws0 -> kw_in (lower "") k = false).
  { intros k Hk. apply kw_in_empty_body, Hall, Hk. }
  destruct (keywords_outcome_unmet "" (k0 :: kws0) k0 ltac:(left)
              (Hmiss k0 ltac:(left)))
    as (p & msg & E & _ & _ & Hnone & _).
  destruct (Hnone Hmiss) as [-> ->].
  rewrite H5 in E. injection E as ->.
  rewrite Hs, Ei, Et. split; reflexivity.
Qed.

(** C7: with an empty keyword list the keyword check adds its full 10
    points and no issue, whatever the body. *)
Theorem empty_keywords_full_credit (body : string) (t : tally) :
  exists t',
    check_keywords body (Some []) t = Ok t'
    /\ total_points t' = total_points t + 10
    /\ max_points t' = max_points t + 10
    /\ seen_issues t' = seen_issues t
    /\ keywords_outcome body (Some []) = Ok (10, []).
Proof.
  eexists. split; [reflexivity | ]. step. repeat split; reflexivity.
Qed.

(** C10: omitting the keywords ([None]) gives exactly the result of passing
    the empty list. *)
Theorem validate_none_as_empty (title meta_description body : string) :
  validate title meta_description body None
  = validate title meta_description body (Some []).
Proof. reflexivity. Qed.

(** *** Word count *)

Lemma check_words_points (body : string) (t : tally) :
  exists t',
    check_words body t = Ok t'
    /\ total_points t' = total_points t + word_credit (split_len body).
Proof.
  unfold check_words, word_credit.
  pose proof (split_len_nonneg body) as Hn.
  destruct (split_len body >=? MIN_WORD_COUNT) eqn:Hw; step.
  - eexists. split; [reflexivity | ]. step. reflexivity.
  - assert (Hlt : split_len body < 500) by (unfold MIN_WORD_COUNT in Hw; lia).
    rewrite words_ratio by lia. step.
    eexists. split; [reflexivity | ]. step. reflexivity.
Qed.

Lemma word_credit_mono (w1 w2 : Z) :
  0 <= w1 <= w2 -> word_credit w1 <= word_credit w2.
Proof.
  intros [H0 Hle]. unfold word_credit, MIN_WORD_COUNT.
  destruct (Z.geb_spec w1 500), (Z.geb_spec w2 500); try lia.
  pose proof (Z.div_le_mono (w1 * 15) (w2 * 15) 500 ltac:(lia) ltac:(lia)). lia.
Qed.

(** C9: with everything else fixed, a body with at least as many words gets
    at least as many points from the word-count check; 500 words or more
    get the full 20. *)
Theorem word_points_monotone (body1 body2 : string) (t : tally) :
  split_len body1 <= split_len body2 ->
  exists t1 t2,
    check_words body1 t = Ok t1
    /\ check_words body2 t = Ok t2
    /\ total_points t1 <= total_points t2
    /\ total_points t2 <= total_points t + 20
    /\ (500 <= split_len body2 -> total_points t2 = total_points t + 20).
Proof.
  intros Hle.
  destruct (check_words_points body1 t) as (t1 & H1 & P1).
  destruct (check_words_points body2 t) as (t2 & H2 & P2).
  exists t1, t2. split; [exact H1 | split; [exact H2 | ]].
  pose proof (split_len_nonneg body1) as Hn.
  pose proof (word_credit_mono _ _ (conj Hn Hle)) as Hm.
  split; [lia | ]. rewrite P2. unfold word_credit, MIN_WORD_COUNT.
  destruct (Z.geb_spec (split_len body2) 500); lia.
Qed.

Lemma word_points_monotone_witness :
  exists t1 t2,
    check_words "one two" start = Ok t1
    /\ check_words (str_repeat "w " 100) start = Ok t2
    /\ total_points t1 <= total_points t2
    /\ total_points t2 <= total_points start + 20
    /\ (500 <= split_len (str_repeat "w " 100)
        -> total_points t2 = total_points start + 20).
Proof.
  apply (word_points_monotone "one two" (str_repeat "w " 100) start).
  vm_compute. discriminate.
Defined.

End SeoFacts.

(** ** [_is_duplicate] and [deduplicate] *)

Module ProcessorFacts.
Import Py Processor.
Local Open Scope list_scope.

(** The literal [0.85] is read as the double nearest to 85/100. *)
Lemma DEDUP_THRESHOLD_nearest : truediv 85 100 = Ok DEDUP_THRESHOLD.
Proof. reflexivity. Qed.

Lemma truthy_true (s : string) : truthy s = true <-> s <> "".
Proof.
  unfold truthy. destruct (String.eqb_spec s ""); cbn; split; congruence.
Qed.

Section Dedup.

Variable ratio : string -> string -> float.

Abbreviation is_dup := (_is_duplicate ratio).
Abbreviation dedup_from := (deduplicate_from ratio).
Abbreviation dedup := (deduplicate ratio).
Abbreviation dup_of := (duplicate_of ratio).

Lemma matches_duplicate_of (x a : gmap string string) :
  matches ratio (get x "url" "") (get x "title" "") a = true <-> dup_of x a.
Proof.
  unfold matches, duplicate_of, _title_similarity.
  destruct (truthy (get x "url" "")) eqn:Hu; cbn [andb].
  - apply truthy_true in Hu.
    destruct (String.eqb_spec (get x "url" "") (get a "url" "")) as [He | Hne].
    + split; [intros _; left; split; assumption | reflexivity].
    + rewrite !andb_true_iff, !truthy_true. split.
      * intros [[Ht Ha] Hr]. right. repeat split; assumption.
      * intros [[_ He] | (Ht & Ha & Hr)]; [contradiction | repeat split; assumption].
  - assert (Hu' : get x "url" "" = "").
    { destruct (String.eqb_spec (get x "url" "") "") as [E | E]; [exact E | ].
      apply truthy_true in E. congruence. }
    rewrite !andb_true_iff, !truthy_true. split.
    + intros [[Ht Ha] Hr]. right. repeat split; assumption.
    + intros [[Hn _] | (Ht & Ha & Hr)]; [contradiction | repeat split; assumption].
Qed.

Lemma scan_seen_exists (url title : string) (seen : list (gmap string string)) :
  scan_seen ratio url title seen = true
  <-> exists a, a ∈ seen /\ matches ratio url title a = true.
Proof.
  induction seen as [ | prev rest IH]; cbn [scan_seen].
  - split; [discriminate | ]. intros (a & Ha & _). inversion Ha.
  - destruct (matches ratio url title prev) eqn:Hm.
    + split; [ | reflexivity]. intros _. exists prev. split; [left | exact Hm].
    + rewrite IH. split.
      * intros (a & Ha & Hma). exists a. split; [right; exact Ha | exact Hma].
      * intros (a & Ha & Hma). apply elem_of_cons in Ha as [-> | Ha]; [congruence | ].
        exists a. split; assumption.
Qed.

(** [_is_duplicate] decides the duplicate relation against the seen list. *)
Lemma is_duplicate_spec (x : gmap string string) (seen : list (gmap string string)) :
  is_dup x seen = true <-> exists a, a ∈ seen /\ dup_of x a.
Proof.
  unfold _is_duplicate. rewrite scan_seen_exists.
  split; intros (a & Ha & Hd); exists a; (split; [exact Ha | ]);
    apply matches_duplicate_of; exact Hd.
Qed.

Lemma deduplicate_from_app (u xs ys : list (gmap string string)) :
  dedup_from u (xs ++ ys) = dedup_from (dedup_from u xs) ys.
Proof.
  revert u. induction xs as [ | x xs IH]; intros u; cbn [deduplicate_from app].
  - reflexivity.
  - destruct (negb (is_dup x u)); apply IH.
Qed.

(** The loop only appends: what it returns is the accepted list it started
    from, followed by a subsequence of its input, and running it again on
    that subsequence accepts all of it. *)
Lemma deduplicate_from_appends (u xs : list (gmap string string)) :
  exists r,
    dedup_from u xs = u ++ r /\ sublist r xs /\ dedup_from u r = u ++ r.
Proof.
  revert u. induction xs as [ | x xs IH]; intros u; cbn [deduplicate_from].
  - exists []. rewrite app_nil_r. repeat split. constructor.
  - destruct (negb (is_dup x u)) eqn:Hd.
    + destruct (IH (u ++ [x])) as (r & Hr & Hsub & Hagain).
      exists (x :: r). rewrite Hr, <- app_assoc. cbn [app].
      split; [reflexivity | split; [now constructor | ]].
      cbn [deduplicate_from]. rewrite Hd, Hagain, <- app_assoc. reflexivity.
    + destruct (IH u) as (r & Hr & Hsub & Hagain).
      exists r. split; [exact Hr | split; [now constructor | exact Hagain]].
Qed.

Lemma deduplicate_step (pre : list (gmap string string)) (x : gmap string string) :
  dedup (pre ++ [x])
  = if is_dup x (dedup pre) then dedup pre else dedup pre ++ [x].
Proof.
  unfold deduplicate. rewrite deduplicate_from_app. cbn [deduplicate_from].
  destruct (is_dup x (dedup_from [] pre)); reflexivity.
Qed.

End Dedup.

(** C2: processing a record [x] after the records [pre], [deduplicate]
    accepts [x] (appends it to what it accepted so far) if and only if [x]
    is a duplicate of no record accepted so far, and leaves the accepted
    list as it is if and only if [x] is a duplicate of one of them; what
    follows [x] in the input does not change that; and a record with an
    empty url and an empty title is accepted. *)
Theorem deduplicate_accepts_iff (ratio : string -> string -> float)
    (pre : list (gmap string string)) (x : gmap string string) :
  (deduplicate ratio (pre ++ [x]) = deduplicate ratio pre ++ [x]
   <-> ~ exists a, a ∈ deduplicate ratio pre /\ duplicate_of ratio x a)
  /\ (deduplicate ratio (pre ++ [x]) = deduplicate ratio pre
      <-> exists a, a ∈ deduplicate ratio pre /\ duplicate_of ratio x a)
  /\ (forall post,
        deduplicate ratio (pre ++ [x])
          `prefix_of` deduplicate ratio (pre ++ x :: post))
  /\ (get x "url" "" = "" -> get x "title" "" = "" ->
      deduplicate ratio (pre ++ [x]) = deduplicate ratio pre ++ [x]).
Proof.
  pose proof (is_duplicate_spec ratio x (deduplicate ratio pre)) as Hspec.
  pose proof (deduplicate_step ratio pre x) as Hstep.
  assert (Hneq : deduplicate ratio pre ++ [x] <> deduplicate ratio pre).
  { intros E. apply (f_equal length) in E. rewrite length_app in E. cbn in E. lia. }
  split; [ | split; [ | split]].
  - rewrite Hstep, <- Hspec.
    destruct (_is_duplicate ratio x (deduplicate ratio pre)); split; congruence.
  - rewrite Hstep, <- Hspec.
    destruct (_is_duplicate ratio x (deduplicate ratio pre)); split; congruence.
  - intros post. replace (pre ++ x :: post) with ((pre ++ [x]) ++ post)
      by (rewrite <- app_assoc; reflexivity).
    unfold deduplicate at 2. rewrite deduplicate_from_app.
    destruct (deduplicate_from_appends ratio (deduplicate_from ratio [] (pre ++ [x])) post)
      as (r & -> & _). exists r. reflexivity.
  - intros Hu Ht. rewrite Hstep.
    destruct (_is_duplicate ratio x (deduplicate ratio pre)) eqn:Hd; [ | reflexivity].
    destruct (proj1 Hspec eq_refl) as (a & _ & [[Hn _] | (Hn & _)]); contradiction.
Qed.

(** C5: the output of [deduplicate] is a subsequence of its input, so the
    accepted records come out unchanged and in their input order, and
    deduplicating it again returns it unchanged. *)
Theorem deduplicate_idempotent (ratio : string -> string -> float)
    (articles : list (gmap string string)) :
  sublist (deduplicate ratio articles) articles
  /\ deduplicate ratio (deduplicate ratio articles) = deduplicate ratio articles.
Proof.
  unfold deduplicate.
  destruct (deduplicate_from_appends ratio [] articles) as (r & Hr & Hsub & Hagain).
  rewrite Hr. cbn [app] in *. split; [exact Hsub | exact Hagain].
Qed.

End ProcessorFacts.

(** ** [get_template] *)

Module TemplatesFacts.
Import Py Templates.

Section Lookup.

Variables best props odds preds : string.

Abbreviation table := (_TEMPLATES best props odds preds).
Abbreviation lookup_template := (get_template best props odds preds).

Lemma templates_lookup (content_type : string) :
  table !! content_type
  = if decide (content_type = "best_bets") then Some best
    else if decide (content_type = "player_props") then Some props
    else if decide (content_type = "odds_analysis") then Some odds
    else if decide (content_type = "predictions") then Some preds
    else None.
Proof.
  unfold _TEMPLATES.
  repeat (rewrite lookup_insert; case_decide; [subst; repeat case_decide; congruence | ]).
  rewrite lookup_empty. repeat case_decide; congruence.
Qed.

Lemma content_types_elem (content_type : string) :
  content_type ∈ CONTENT_TYPES
  <-> content_type = "best_bets" \/ content_type = "player_props"
      \/ content_type = "odds_analysis" \/ content_type = "predictions".
Proof.
  unfold CONTENT_TYPES. rewrite !elem_of_cons, elem_of_nil. tauto.
Qed.

End Lookup.

(** C8: [get_template] raises the [ValueError] that names the content type
    exactly when the content type is none of [best_bets], [player_props],
    [odds_analysis], [predictions], and raises nothing else; for each of the
    four it returns the template stored under that very key. *)
Theorem get_template_unknown_iff (best props odds preds content_type : string) :
  (get_template best props odds preds content_type
   = Raise (ValueError (unknown_content_type content_type))
   <-> content_type ∉ CONTENT_TYPES)
  /\ ((exists e, get_template best props odds preds content_type = Raise e)
      <-> content_type ∉ CONTENT_TYPES)
  /\ unknown_content_type content_type
     = "Unknown content type '" +:+ content_type +:+ "'. "
       +:+ "Must be one of: best_bets, player_props, odds_analysis, predictions"
  /\ (forall template,
        get_template best props odds preds content_type = Ok template
        <-> _TEMPLATES best props odds preds !! content_type = Some template)
  /\ get_template best props odds preds "best_bets" = Ok best
  /\ get_template best props odds preds "player_props" = Ok props
  /\ get_template best props odds preds "odds_analysis" = Ok odds
  /\ get_template best props odds preds "predictions" = Ok preds.
Proof.
  assert (Hget : forall ct,
             get_template best props odds preds ct
             = match _TEMPLATES best props odds preds !! ct with
               | Some t => Ok t
               | None => Raise (ValueError (unknown_content_type ct))
               end).
  { intros ct. unfold get_template.
    destruct (_TEMPLATES best props odds preds !! ct); reflexivity. }
  rewrite !Hget, !templates_lookup, content_types_elem.
  split; [ | split; [ | split; [ | split]]].
  - repeat case_decide; split; intros Hx; try discriminate; try tauto; try reflexivity.
  - repeat case_decide; split; try tauto; try (intros [e He]; discriminate);
      intros _; eexists; reflexivity.
  - reflexivity.
  - intros template. repeat case_decide; split; congruence.
  - repeat split; reflexivity.
Qed.

End TemplatesFacts.

(** ** More about [deduplicate] *)

Module ProcessorMore.
Import Py Processor ProcessorViews ProcessorFacts.
Local Open Scope list_scope.

Section Dedup.

Variable ratio : string -> string -> float.

Abbreviation is_dup := (_is_duplicate ratio).
Abbreviation dedup_from := (deduplicate_from ratio).
Abbreviation dedup := (deduplicate ratio).
Abbreviation dup_of := (duplicate_of ratio).

Abbreviation fresh := (ProcessorViews.fresh ratio).

Lemma fresh_nil : fresh [].
Proof. intros pre x post E. destruct pre; discriminate. Qed.

Lemma fresh_snoc (l : list (gmap string string)) (x : gmap string string) :
  fresh l -> (~ exists a, a ∈ l /\ dup_of x a) -> fresh (l ++ [x]).
Proof.
  intros Hl Hx pre y post E.
  destruct post as [ | z post' _] using rev_ind.
  - apply app_inj_tail in E as [-> ->]. exact Hx.
  - rewrite app_comm_cons, app_assoc in E.
    apply app_inj_tail in E as [E _]. exact (Hl _ _ _ E).
Qed.

Lemma fresh_prefix (l : list (gmap string string)) (x : gmap string string) :
  fresh (l ++ [x]) -> fresh l /\ ~ exists a, a ∈ l /\ dup_of x a.
Proof.
  intros H. split.
  - intros pre y post E. apply (H pre y (post ++ [x])).
    rewrite E, <- app_assoc. reflexivity.
  - apply (H l x []). reflexivity.
Qed.

Lemma deduplicate_from_fresh (u xs : list (gmap string string)) :
  fresh u -> fresh (dedup_from u xs).
Proof.
  revert u. induction xs as [ | x xs IH]; intros u Hu; cbn [deduplicate_from].
  - exact Hu.
  - destruct (is_dup x u) eqn:Hd; cbn [negb].
    + apply IH, Hu.
    + apply IH, fresh_snoc; [exact Hu | ].
      rewrite <- is_duplicate_spec. congruence.
Qed.

Lemma deduplicate_from_keeps (u xs : list (gmap string string))
    (a : gmap string string) :
  a ∈ u -> a ∈ dedup_from u xs.
Proof.
  intros Ha. destruct (deduplicate_from_appends ratio u xs) as (r & -> & _).
  apply elem_of_app. left. exact Ha.
Qed.

Lemma deduplicate_from_covers (u xs : list (gmap string string))
    (x : gmap string string) :
  x ∈ xs ->
  x ∈ dedup_from u xs \/ exists a, a ∈ dedup_from u xs /\ dup_of x a.
Proof.
  revert u. induction xs as [ | y xs IH]; intros u Hx.
  - inversion Hx.
  - cbn [deduplicate_from].
    apply elem_of_cons in Hx as [-> | Hx].
    + destruct (is_dup y u) eqn:Hd; cbn [negb].
      * right. apply is_duplicate_spec in Hd as (a & Ha & Hda).
        exists a. split; [apply deduplicate_from_keeps, Ha | exact Hda].
      * left. apply deduplicate_from_keeps, elem_of_app. right. left.
    + destruct (negb (is_dup y u)); apply IH, Hx.
Qed.

Lemma fresh_fixed (xs : list (gmap string string)) :
  fresh xs -> dedup xs = xs.
Proof.
  induction xs as [ | x xs IH] using rev_ind; intros H.
  - reflexivity.
  - apply fresh_prefix in H as [Hxs Hx].
    rewrite deduplicate_step, (IH Hxs).
    destruct (is_dup x xs) eqn:Hd; [ | reflexivity].
    exfalso. apply Hx. apply is_duplicate_spec. exact Hd.
Qed.

End Dedup.

(** X2: in the output of [deduplicate] no record is a duplicate of a record
    before it; in particular two output records at different places never
    share a non-empty url. *)
Theorem deduplicate_output_fresh (ratio : string -> string -> float)
    (articles pre post : list (gmap string string)) (a x : gmap string string) :
  deduplicate ratio articles = pre ++ x :: post -> a ∈ pre ->
  ~ duplicate_of ratio x a
  /\ (get x "url" "" <> "" -> get a "url" "" <> get x "url" "").
Proof.
  intros E Ha.
  pose proof (deduplicate_from_fresh ratio [] articles (fresh_nil ratio)) as Hf.
  assert (Hn : ~ duplicate_of ratio x a).
  { intros Hd. apply (Hf pre x post E). exists a. split; assumption. }
  split; [exact Hn | ].
  intros Hu Heq. apply Hn. left. split; [exact Hu | congruence].
Qed.


Lemma sublist_same_length {A : Type} (l1 l2 : list A) :
  sublist l1 l2 -> length l1 = length l2 -> l1 = l2.
Proof.
  induction 1 as [ | x l1 l2 _ IH | x l1 l2 Hsub _]; cbn [length]; intros Hlen.
  - reflexivity.
  - f_equal. apply IH. lia.
  - apply sublist_length in Hsub. lia.
Qed.

Lemma deduplicate_output_fresh_witness :
  ~ duplicate_of never_similar record_c record_a
  /\ (get record_c "url" "" <> "" -> get record_a "url" "" <> get record_c "url" "").
Proof.
  apply (deduplicate_output_fresh never_similar [record_a; record_b; record_c]
           [record_a] []).
  - vm_compute. reflexivity.
  - left.
Defined.

(** X3: every input record is either in the output of [deduplicate] or a
    duplicate of a record that is. *)
Theorem deduplicate_covers (ratio : string -> string -> float)
    (articles : list (gmap string string)) (x : gmap string string) :
  x ∈ articles ->
  x ∈ deduplicate ratio articles
  \/ exists a, a ∈ deduplicate ratio articles /\ duplicate_of ratio x a.
Proof. apply deduplicate_from_covers. Qed.

Lemma deduplicate_covers_witness :
  record_b ∈ deduplicate never_similar [record_a; record_b; record_c]
  \/ exists a, a ∈ deduplicate never_similar [record_a; record_b; record_c]
               /\ duplicate_of never_similar record_b a.
Proof.
  apply (deduplicate_covers never_similar [record_a; record_b; record_c]).
  right. left.
Defined.

(** X4: [deduplicate] returns its input unchanged exactly when no input
    record is a duplicate of a record before it, and exactly when it removes
    nothing. *)
Theorem deduplicate_fixed_iff (ratio : string -> string -> float)
    (articles : list (gmap string string)) :
  (deduplicate ratio articles = articles
   <-> forall pre x post, articles = pre ++ x :: post ->
         ~ exists a, a ∈ pre /\ duplicate_of ratio x a)
  /\ (deduplicate ratio articles = articles
      <-> length (deduplicate ratio articles) = length articles)
  /\ (length (deduplicate ratio articles) <= length articles)%nat.
Proof.
  assert (Hsub : sublist (deduplicate ratio articles) articles).
  { unfold deduplicate.
    destruct (deduplicate_from_appends ratio [] articles) as (r & -> & Hr & _).
    exact Hr. }
  split; [ | split].
  - split.
    + intros E pre x post Hdec.
      apply (deduplicate_from_fresh ratio [] articles (fresh_nil ratio) pre x post).
      fold (deduplicate ratio articles). rewrite E. exact Hdec.
    + apply fresh_fixed.
  - split; [intros ->; reflexivity | ].
    apply sublist_same_length, Hsub.
  - apply sublist_length, Hsub.
Qed.


(** X5: [deduplicate] always keeps the first input record at the head of
    its output, so the output is empty only for the empty input. *)
Theorem deduplicate_keeps_first (ratio : string -> string -> float)
    (articles : list (gmap string string)) :
  head (deduplicate ratio articles) = head articles
  /\ (deduplicate ratio articles = [] <-> articles = []).
Proof.
  destruct articles as [ | x rest].
  - split; [reflexivity | split; reflexivity].
  - unfold deduplicate. cbn [deduplicate_from _is_duplicate scan_seen negb app].
    destruct (deduplicate_from_appends ratio [x] rest) as (r & -> & _).
    cbn. split; [reflexivity | split; discriminate].
Qed.

End ProcessorMore.

(** ** More about [validate] *)

Module SeoMore.
Import Py Seo SeoViews SeoFacts.
Local Open Scope list_scope.

Lemma keywords_outcome_points (body : string) (keywords : list string) :
  exists msgs,
    keywords_outcome body (Some keywords)
    = Ok (keyword_points (found_count body keywords) (Z.of_nat (length keywords)),
          msgs).
Proof.
  destruct (keywords_outcome_shape body (Some keywords)) as (o & Ho & _).
  exists o.2. rewrite Ho. f_equal. destruct o as [p msgs]. cbn [snd]. f_equal.
  revert Ho. unfold keywords_outcome, check_keywords, keyword_points, found_count.
  destruct keywords as [ | kw kws]; step.
  { intros [= <- _]. reflexivity. }
  set (kwl := kw :: kws).
  set (found := Z.of_nat (length (filter _ kwl))).
  set (n := Z.of_nat (length kwl)).
  replace (n =? 0) with false
    by (symmetry; apply Z.eqb_neq; unfold n, kwl; simpl length; lia).
  destruct (found =? n); step; [intros [= <- _]; reflexivity | ].
  destruct (found >? 0); step; [ | intros [= <- _]; reflexivity].
  destruct (int_ratio_times found n 10); step; [ | discriminate].
  intros [= <- _]. lia.
Qed.

Lemma found_count_fmap (body : string) (keywords : list string) :
  found_count body keywords
  = Z.of_nat (length (filter (fun k => contains k (lower body) = true)
                        (lower <$> keywords))).
Proof.
  unfold found_count, kw_in. f_equal.
  induction keywords as [ | kw kws IH]; [reflexivity | ].
  rewrite fmap_cons, !filter_cons.
  destruct (decide (contains (lower kw) (lower body) = true)); cbn [length]; lia.
Qed.


Lemma filter_length_all {A : Type} (P : A -> Prop) `{forall x, Decision (P x)}
    (l : list A) :
  length (filter P l) = length l <-> Forall P l.
Proof.
  induction l as [ | x l IH].
  - split; [constructor | reflexivity].
  - rewrite filter_cons. pose proof (length_filter P l) as Hle.
    destruct (decide (P x)) as [Hx | Hx]; cbn [length].
    + rewrite Forall_cons. split.
      * intros E. split; [exact Hx | apply IH; lia].
      * intros [_ Hl]. f_equal. apply IH, Hl.
    + split; [lia | ]. intros Hall. apply Forall_cons in Hall as [Hx' _]. contradiction.
Qed.

(** X6: with fewer than 2^53 keywords, [validate] gives the score 100
    exactly when it reports no issue. *)
Theorem perfect_score_iff_no_issue (title meta_description body : string)
    (keywords : option (list string)) :
  keyword_count keywords < 2 ^ 53 ->
  exists r,
    validate title meta_description body keywords = Ok r
    /\ (score r = 100 <-> issues r = []).
Proof.
  intros Hcount.
  destruct (validate_outcomes title meta_description body keywords)
    as (o4 & o5 & r & H4 & H5 & Hv & Hi & Hs & _).
  destruct (title_outcome_shape title) as [S1 P1].
  destruct (meta_outcome_shape meta_description) as [S2 P2].
  destruct (h2_outcome_shape body) as [S3 P3].
  destruct (words_outcome_shape body) as (o4' & H4' & S4 & P4).
  destruct (keywords_outcome_shape body keywords) as (o5' & H5' & P5 & S5').
  rewrite H4 in H4'. injection H4' as <-. rewrite H5 in H5'. injection H5' as <-.
  destruct (link_outcome_shape body) as [S6 P6].
  assert (S5 : full_or_one_issue 10 o5).
  { destruct S5' as [Hfull | [Hmsg Hlt]]; [left; exact Hfull | right].
    split; [apply Hlt, Hcount | exact Hmsg]. }
  clear S5'.
  exists r. split; [exact Hv | ].
  rewrite Hi, Hs. unfold full_or_one_issue in *. split.
  - intros Hfull. apply score_of_total_full in Hfull.
    destruct S1 as [[? ->] | [? _]]; [ | lia].
    destruct S2 as [[? ->] | [? _]]; [ | lia].
    destruct S3 as [[? ->] | [? _]]; [ | lia].
    destruct S4 as [[? ->] | [? _]]; [ | lia].
    destruct S5 as [[? ->] | [? _]]; [ | lia].
    destruct S6 as [[? ->] | [? _]]; [ | lia].
    reflexivity.
  - intros Hnil.
    repeat match goal with
           | H : (_ ++ _)%list = [] |- _ => apply app_eq_nil in H; destruct H
           end.
    destruct S1 as [[-> _] | [_ [? ?]]]; [ | congruence].
    destruct S2 as [[-> _] | [_ [? ?]]]; [ | congruence].
    destruct S3 as [[-> _] | [_ [? ?]]]; [ | congruence].
    destruct S4 as [[-> _] | [_ [? ?]]]; [ | congruence].
    destruct S5 as [[-> _] | [_ [? ?]]]; [ | congruence].
    destruct S6 as [[-> _] | [_ [? ?]]]; [ | congruence].
    reflexivity.
Qed.

Lemma perfect_score_iff_no_issue_witness :
  exists r,
    validate "Short" "" "one two" (Some ["one"; "zzz"]) = Ok r
    /\ (score r = 100 <-> issues r = []).
Proof.
  apply (perfect_score_iff_no_issue "Short" "" "one two" (Some ["one"; "zzz"])).
  vm_compute. reflexivity.
Defined.

(** X7: an article passes exactly when its six checks award at least 70
    points in total: the rounding of the score never changes the verdict. *)
Theorem passed_iff_seventy_points (title meta_description body : string)
    (keywords : option (list string)) :
  exists t r,
    run_checks title meta_description body keywords = Ok t
    /\ validate title meta_description body keywords = Ok r
    /\ (passed r = true <-> 70 <= total_points t).
Proof.
  destruct (validate_reads_total title meta_description body keywords)
    as (t & r & Hrun & _ & Ht & Hv & Hs).
  destruct (validate_outcomes title meta_description body keywords)
    as (_ & _ & r' & _ & _ & Hv' & _ & _ & Hp).
  rewrite Hv in Hv'. injection Hv' as <-.
  exists t, r. split; [exact Hrun | split; [exact Hv | ]].
  rewrite Hp, Hs. unfold PASS_THRESHOLD, score_of_total.
  destruct (Z.eqb_spec (total_points t) 29); [cbn; lia | ].
  destruct (Z.eqb_spec (total_points t) 57); [cbn; lia | ].
  destruct (Z.eqb_spec (total_points t) 58); cbn; lia.
Qed.

(** X8: the score and the verdict depend on the keywords only through the
    multiset of their lower-cased forms: reordering the keywords or changing
    their case changes neither. *)
Theorem score_ignores_keyword_order_and_case
    (title meta_description body : string) (keywords keywords' : list string) :
  lower <$> keywords ≡ₚ lower <$> keywords' ->
  exists r r',
    validate title meta_description body (Some keywords) = Ok r
    /\ validate title meta_description body (Some keywords') = Ok r'
    /\ score r = score r' /\ passed r = passed r'.
Proof.
  intros Hperm.
  destruct (validate_outcomes title meta_description body (Some keywords))
    as (o4 & o5 & r & H4 & H5 & Hv & _ & Hs & Hp).
  destruct (validate_outcomes title meta_description body (Some keywords'))
    as (o4' & o5' & r' & H4' & H5' & Hv' & _ & Hs' & Hp').
  rewrite H4 in H4'. injection H4' as <-.
  destruct (keywords_outcome_points body keywords) as (msgs & Hk).
  destruct (keywords_outcome_points body keywords') as (msgs' & Hk').
  rewrite Hk in H5. injection H5 as <-. rewrite Hk' in H5'. injection H5' as <-.
  assert (Hf : found_count body keywords = found_count body keywords').
  { rewrite !found_count_fmap. now rewrite Hperm. }
  assert (Hn : length keywords = length keywords').
  { apply Permutation_length in Hperm. now rewrite !length_fmap in Hperm. }
  exists r, r'. split; [exact Hv | split; [exact Hv' | ]].
  cbn [fst] in Hs, Hs'. rewrite Hf, Hn in Hs.
  split; [congruence | ]. rewrite Hp, Hp'. congruence.
Qed.

Lemma score_ignores_keyword_order_and_case_witness :
  exists r r',
    validate "T" "M" "novig odds" (Some ["Novig"; "zzz"]) = Ok r
    /\ validate "T" "M" "novig odds" (Some ["ZZZ"; "NOVIG"]) = Ok r'
    /\ score r = score r' /\ passed r = passed r'.
Proof.
  apply (score_ignores_keyword_order_and_case "T" "M" "novig odds"
           ["Novig"; "zzz"] ["ZZZ"; "NOVIG"]).
  cbn. apply perm_swap.
Defined.

Lemma check_keywords_silent (body : string) (keywords : list string)
    (t : tally) :
  exists t',
    check_keywords body (Some keywords) t = Ok t'
    /\ (seen_issues t' = seen_issues t
        <-> Forall (fun kw => contains (lower kw) (lower body) = true) keywords)
    /\ (seen_issues t' = seen_issues t -> total_points t' = total_points t + 10).
Proof.
  destruct (keywords_outcome_shape body (Some keywords)) as (o & Ho & _ & _).
  rewrite check_keywords_credit, Ho. step. eexists. split; [reflexivity | ]. step.
  assert (Hiff : o.2 = [] <-> seen_issues t ++ o.2 = seen_issues t).
  { split; [intros ->; apply app_nil_r | ].
    intros E. apply (f_equal length) in E. rewrite length_app in E.
    destruct o.2; [reflexivity | cbn in E; lia]. }
  rewrite <- Hiff.
  revert Ho. unfold keywords_outcome, check_keywords, kw_in.
  destruct keywords as [ | kw kws]; step.
  { intros [= <-]. cbn. split; [split; [constructor | reflexivity] | reflexivity]. }
  set (kwl := kw :: kws).
  set (found := Z.of_nat (length (filter _ kwl))).
  set (n := Z.of_nat (length kwl)).
  assert (Hall : found = n
                 <-> Forall (fun kw => contains (lower kw) (lower body) = true) kwl).
  { rewrite <- filter_length_all. unfold found, n.
    split; intros E; [apply Nat2Z.inj in E | apply (f_equal Z.of_nat) in E]; exact E. }
  destruct (Z.eqb_spec found n) as [Heq | Hne]; step.
  - intros [= <-]. cbn [fst snd].
    split; [split; [intros _; apply Hall, Heq | reflexivity] | intros _; reflexivity].
  - assert (Hnot : ~ Forall (fun kw => contains (lower kw) (lower body) = true) kwl)
      by (intros Hf; apply Hne, Hall, Hf).
    destruct (found >? 0); step.
    + destruct (int_ratio_times found n 10); step; [ | discriminate].
      intros [= <-]. cbn [fst snd].
      split; [split; [discriminate | contradiction] | discriminate].
    + intros [= <-]. cbn [fst snd].
      split; [split; [discriminate | contradiction] | discriminate].
Qed.

(** X9: the keyword check appends no issue exactly when every keyword
    occurs in the body, compared case-insensitively; it then awards the full
    10 points. *)
Theorem keywords_silent_iff_all_found (body : string) (keywords : list string)
    (t : tally) :
  exists t',
    check_keywords body (Some keywords) t = Ok t'
    /\ (seen_issues t' = seen_issues t
        <-> Forall (fun kw => contains (lower kw) (lower body) = true) keywords)
    /\ (seen_issues t' = seen_issues t -> total_points t' = total_points t + 10).
Proof. apply check_keywords_silent. Qed.

(** X10: below 500 words the word-count check awards exactly the integer
    quotient [word_count * 15 / 500], which is at most 14, so the cap of 15
    never applies; from 500 words on it awards 20. *)
Theorem word_credit_exact (body : string) (t : tally) :
  exists t',
    check_words body t = Ok t'
    /\ total_points t'
       = total_points t
         + (if 500 <=? split_len body then 20 else split_len body * 15 / 500)
    /\ (split_len body < 500 -> total_points t' <= total_points t + 14).
Proof.
  destruct (check_words_points body t) as (t' & Hc & Hp).
  pose proof (split_len_nonneg body) as Hn.
  exists t'. split; [exact Hc | ].
  rewrite Hp. unfold word_credit, MIN_WORD_COUNT.
  destruct (Z.geb_spec (split_len body) 500), (Z.leb_spec 500 (split_len body));
    try lia.
  assert (split_len body * 15 / 500 <= 14)
    by (apply Z.lt_succ_r, Z.div_lt_upper_bound; lia).
  split; lia.
Qed.

(** X11: the H2 check awards 0 points for no heading, 10 for one heading
    and 20 for two or more: the cap of 15 in [min(h2_count * 10, 15)] is
    never reached. *)
Theorem h2_credit_values (body : string) (t : tally) :
  total_points (check_h2 body t)
  = total_points t
    + (if count_line_prefix "## " true body =? 0 then 0
       else if count_line_prefix "## " true body =? 1 then 10
       else 20)
  /\ 0 <= count_line_prefix "## " true body.
Proof.
  pose proof (count_line_prefix_nonneg "## " body true) as Hn.
  split; [ | exact Hn].
  unfold check_h2, MIN_H2_COUNT.
  destruct (Z.geb_spec (count_line_prefix "## " true body) 2); step;
    destruct (Z.eqb_spec (count_line_prefix "## " true body) 0);
    destruct (Z.eqb_spec (count_line_prefix "## " true body) 1); lia.
Qed.

End SeoMore.

(** ** [parse_claude_response] and the file name of [rewrite_and_save] *)

Module EngineFacts.
Import Py Engine.

(** *** Characters *)

Lemma all_chars_impl (f g : ascii -> bool) (s : string) :
  (forall c, f c = true -> g c = true) ->
  all_chars f s = true -> all_chars g s = true.
Proof.
  intros Hfg. induction s as [ | c s IH]; cbn [all_chars]; [reflexivity | ].
  rewrite !andb_true_iff. intros [Hc Hs]. split; [apply Hfg, Hc | apply IH, Hs].
Qed.

Lemma all_chars_not_mem (f : ascii -> bool) (c : ascii) (s : string) :
  f c = false -> all_chars f s = true -> mem_char c s = false.
Proof.
  intros Hc. induction s as [ | d s IH]; cbn [all_chars mem_char]; [reflexivity | ].
  rewrite andb_true_iff. intros [Hd Hs]. rewrite (IH Hs), orb_false_r.
  destruct (Ascii.eqb_spec c d) as [-> | _]; [congruence | reflexivity].
Qed.

Lemma all_chars_keep_chars (f : ascii -> bool) (s : string) :
  all_chars f (keep_chars f s) = true.
Proof.
  induction s as [ | c s IH]; cbn [keep_chars]; [reflexivity | ].
  destruct (f c) eqn:Hc; [cbn [all_chars]; now rewrite Hc | exact IH].
Qed.

Lemma all_chars_lstrip_by (f g : ascii -> bool) (s : string) :
  all_chars f s = true -> all_chars f (lstrip_by g s) = true.
Proof.
  induction s as [ | c s IH]; cbn [lstrip_by]; [reflexivity | ].
  intros H. destruct (g c); [ | exact H].
  cbn [all_chars] in H. apply andb_true_iff in H as [_ H]. apply IH, H.
Qed.

Lemma all_chars_rstrip_by (f g : ascii -> bool) (s : string) :
  all_chars f s = true -> all_chars f (rstrip_by g s) = true.
Proof.
  induction s as [ | c s IH]; cbn [rstrip_by]; [reflexivity | ].
  cbn [all_chars]. rewrite andb_true_iff. intros [Hc Hs].
  specialize (IH Hs). destruct (rstrip_by g s) as [ | d kept].
  - destruct (g c); cbn [all_chars]; [reflexivity | now rewrite Hc].
  - cbn [all_chars] in *. now rewrite Hc.
Qed.

Lemma all_chars_strip (f : ascii -> bool) (s : string) :
  all_chars f s = true -> all_chars f (strip s) = true.
Proof. intros H. apply all_chars_rstrip_by, all_chars_lstrip_by, H. Qed.

Lemma all_chars_take_chars (f : ascii -> bool) (n : nat) (s : string) :
  all_chars f s = true -> all_chars f (take_chars n s) = true.
Proof.
  revert s. induction n as [ | n IH]; intros [ | c s]; cbn [take_chars all_chars];
    try reflexivity.
  rewrite !andb_true_iff. intros [Hc Hs]. split; [exact Hc | apply IH, Hs].
Qed.

Lemma length_take_chars (n : nat) (s : string) :
  (String.length (take_chars n s) <= n)%nat.
Proof.
  revert s. induction n as [ | n IH]; intros [ | c s]; cbn; try lia.
  specialize (IH s). lia.
Qed.

Lemma lower_char_name (c : ascii) :
  is_word c || Ascii.eqb c dash = true -> name_char (lower_char c) = true.
Proof.
  destruct c as [[ ] [ ] [ ] [ ] [ ] [ ] [ ] [ ]]; vm_compute; intros H;
    first [reflexivity | discriminate].
Qed.

Lemma all_chars_lower (s : string) :
  all_chars (fun c => is_word c || Ascii.eqb c dash) s = true ->
  all_chars name_char (lower s) = true.
Proof.
  induction s as [ | c s IH]; cbn [all_chars lower]; [reflexivity | ].
  rewrite !andb_true_iff. intros [Hc Hs].
  split; [apply lower_char_name, Hc | apply IH, Hs].
Qed.

Lemma all_chars_dash_runs (in_run : bool) (s : string) :
  all_chars kept_in_title s = true ->
  all_chars (fun c => is_word c || Ascii.eqb c dash) (dash_runs in_run s) = true.
Proof.
  revert in_run. induction s as [ | c s IH]; intros in_run; cbn [all_chars dash_runs];
    [reflexivity | ].
  rewrite andb_true_iff. intros [Hc Hs]. unfold kept_in_title in Hc.
  destruct (isspace c) eqn:Hsp.
  - destruct in_run; [apply IH, Hs | ].
    cbn [all_chars]. rewrite (IH true Hs). reflexivity.
  - cbn [all_chars]. rewrite (IH false Hs), andb_true_r.
    rewrite orb_false_r in Hc. exact Hc.
Qed.

(** X12: the title part of the file name that [rewrite_and_save] writes to
    has at most 60 characters, each a dash or a word character that is no
    capital letter; so it holds no whitespace, no dot and no slash or
    backslash, whatever the title. *)
Theorem safe_title_is_safe (title : string) :
  all_chars name_char (safe_title title) = true
  /\ len (safe_title title) <= 60
  /\ all_chars (fun c => negb (isspace c)) (safe_title title) = true
  /\ mem_char "." (safe_title title) = false
  /\ mem_char "/" (safe_title title) = false
  /\ mem_char (ascii_of_N 92) (safe_title title) = false.
Proof.
  assert (Hname : all_chars name_char (safe_title title) = true).
  { unfold safe_title.
    apply all_chars_take_chars, all_chars_lower, all_chars_dash_runs,
      all_chars_strip, all_chars_keep_chars. }
  split; [exact Hname | ].
  split.
  { unfold safe_title, len. pose proof (length_take_chars 60
      (lower (dash_runs false (strip (keep_chars kept_in_title title))))). lia. }
  split.
  { revert Hname. apply all_chars_impl.
    intros c. destruct c as [[ ] [ ] [ ] [ ] [ ] [ ] [ ] [ ]]; vm_compute; intros H;
      first [reflexivity | discriminate]. }
  repeat split; apply (all_chars_not_mem name_char); try exact Hname; reflexivity.
Qed.


(** *** Stripping *)

Lemma length_lstrip_by (f : ascii -> bool) (s : string) :
  (String.length (lstrip_by f s) <= String.length s)%nat.
Proof.
  induction s as [ | c s IH]; cbn [lstrip_by]; [lia | ].
  destruct (f c); cbn [String.length]; lia.
Qed.

Lemma length_rstrip_by (f : ascii -> bool) (s : string) :
  (String.length (rstrip_by f s) <= String.length s)%nat.
Proof.
  induction s as [ | c s IH]; cbn [rstrip_by]; [lia | ].
  destruct (rstrip_by f s); [destruct (f c) | ]; cbn [String.length] in *; lia.
Qed.

(** A text that stripping leaves alone is empty or starts with a character
    that is not stripped. *)
Lemma stripped_head (f : ascii -> bool) (s : string) :
  rstrip_by f (lstrip_by f s) = s ->
  match s with
  | EmptyString => True
  | String c _ => f c = false
  end.
Proof.
  destruct s as [ | c s]; [trivial | ]. intros E.
  destruct (f c) eqn:Hc; [ | reflexivity]. exfalso.
  apply (f_equal String.length) in E. cbn [lstrip_by] in E. rewrite Hc in E.
  pose proof (length_rstrip_by f (lstrip_by f s)).
  pose proof (length_lstrip_by f s). cbn [String.length] in E. lia.
Qed.

Lemma rstrip_by_head (f : ascii -> bool) (c : ascii) (s : string) :
  f c = false -> exists kept, rstrip_by f (String c s) = String c kept.
Proof.
  intros Hc. cbn [rstrip_by]. destruct (rstrip_by f s); [rewrite Hc | ]; eauto.
Qed.

Lemma rstrip_by_idem (f : ascii -> bool) (s : string) :
  rstrip_by f (rstrip_by f s) = rstrip_by f s.
Proof.
  induction s as [ | c s IH]; [reflexivity | ]. cbn [rstrip_by].
  destruct (rstrip_by f s) as [ | d kept] eqn:Hr.
  - destruct (f c) eqn:Hc; [reflexivity | ]. cbn [rstrip_by]. now rewrite Hc.
  - cbn [rstrip_by] in *. rewrite IH. reflexivity.
Qed.

Lemma strip_idem (s : string) : strip (strip s) = strip s.
Proof.
  unfold strip.
  assert (Hl : lstrip_by isspace (rstrip_by isspace (lstrip_by isspace s))
               = rstrip_by isspace (lstrip_by isspace s)).
  { assert (Hhead : match lstrip_by isspace s with
                    | EmptyString => True
                    | String c _ => isspace c = false
                    end).
    { induction s as [ | c s IH]; cbn [lstrip_by]; [trivial | ].
      destruct (isspace c) eqn:Hc; [exact IH | exact Hc]. }
    destruct (lstrip_by isspace s) as [ | c r]; [reflexivity | ].
    destruct (rstrip_by_head isspace c r Hhead) as (kept & ->).
    cbn [lstrip_by]. now rewrite Hhead. }
  rewrite Hl. apply rstrip_by_idem.
Qed.

(** *** Lines *)

Lemma append_String (c : ascii) (s1 s2 : string) :
  String c s1 +:+ s2 = String c (s1 +:+ s2).
Proof. reflexivity. Qed.

Lemma append_empty (s : string) : "" +:+ s = s.
Proof. reflexivity. Qed.

Ltac norm_append := rewrite ?append_String, ?append_empty in *.

Lemma mem_char_append (c : ascii) (s1 s2 : string) :
  mem_char c (s1 +:+ s2) = mem_char c s1 || mem_char c s2.
Proof.
  induction s1 as [ | d s1 IH]; norm_append; cbn [mem_char]; [reflexivity | ].
  rewrite IH. apply orb_assoc.
Qed.

Lemma first_line_append (l rest : string) :
  mem_char newline l = false ->
  first_line (l +:+ String newline rest) = l.
Proof.
  induction l as [ | c l IH]; norm_append; cbn [first_line mem_char].
  - change (Ascii.eqb newline newline) with true. reflexivity.
  - rewrite orb_false_iff. intros [Hc Hl].
    rewrite Ascii.eqb_sym in Hc. rewrite Hc, (IH Hl). reflexivity.
Qed.

Lemma search_lines_within (tag : string) (attempt : string -> option string)
    (l rest : string) :
  mem_char newline l = false ->
  search_lines tag attempt false (l +:+ String newline rest)
  = search_lines tag attempt true rest.
Proof.
  induction l as [ | c l IH]; norm_append; cbn [mem_char].
  - intros _. cbn [search_lines]. reflexivity.
  - rewrite orb_false_iff. intros [Hc Hl].
    rewrite Ascii.eqb_sym in Hc. cbn [search_lines]. rewrite Hc. apply IH, Hl.
Qed.

(** A first line that does not start with the tag is skipped. *)
Lemma search_lines_skip (tag : string) (attempt : string -> option string)
    (l rest : string) :
  mem_char newline l = false ->
  strip_prefix tag (l +:+ String newline rest) = None ->
  search_lines tag attempt true (l +:+ String newline rest)
  = search_lines tag attempt true rest.
Proof.
  intros Hl Hp. destruct l as [ | c l].
  - norm_append. cbn [search_lines]. rewrite Hp. reflexivity.
  - norm_append. cbn [search_lines]. rewrite Hp.
    cbn [mem_char] in Hl. apply orb_false_iff in Hl as [Hc Hl].
    rewrite Ascii.eqb_sym in Hc. rewrite Hc. apply search_lines_within, Hl.
Qed.

Lemma append_assoc (a b c : string) : (a +:+ b) +:+ c = a +:+ (b +:+ c).
Proof. induction a as [ | x a IH]; norm_append; [reflexivity | now rewrite IH]. Qed.

(** The field pattern on a line that holds one space and a stripped text. *)
Lemma match_field_line (t rest : string) :
  t <> "" -> mem_char newline t = false -> strip t = t ->
  match_field (String " " (t +:+ String newline rest)) = Some t.
Proof.
  intros Hne Hnl Hst. pose proof (stripped_head isspace t Hst) as Hhead.
  destruct t as [ | c t]; [contradiction | ].
  unfold match_field. norm_append. cbn [lstrip_by].
  change (isspace " ") with true. cbv iota. rewrite Hhead.
  f_equal. apply (first_line_append (String c t)), Hnl.
Qed.

Lemma match_body_line (b : string) :
  strip b = b -> match_body (String newline b) = Some b.
Proof.
  intros Hst. pose proof (stripped_head isspace b Hst) as Hhead.
  cbn [match_body]. change (isspace newline) with true. cbv iota.
  destruct b as [ | c b]; cbn [match_body]; [reflexivity | ].
  rewrite Hhead. reflexivity.
Qed.

(** X13: a response in the documented format, with a non-empty one-line
    title and meta description that carry no surrounding whitespace or
    quotes and a body without surrounding whitespace, is parsed back to
    exactly these three parts. *)
Theorem parse_documented_response (title meta_description body : string) :
  title <> "" -> meta_description <> "" ->
  mem_char newline title = false -> mem_char newline meta_description = false ->
  strip title = title -> strip meta_description = meta_description ->
  strip_char quote title = title ->
  strip_char quote meta_description = meta_description ->
  strip body = body ->
  parse_claude_response (documented_response title meta_description body)
  = (title, meta_description, body).
Proof.
  intros Ht Hm Hnt Hnm Hst Hsm Hqt Hqm Hsb.
  unfold parse_claude_response, documented_response.
  set (body_line := "BODY:" +:+ String newline body).
  set (meta_line := "META_DESCRIPTION: " +:+ meta_description
                    +:+ String newline body_line).
  assert (Htitle : search_lines "TITLE:" match_field true
                     ("TITLE: " +:+ title +:+ String newline meta_line)
                   = Some title).
  { norm_append. cbn [search_lines strip_prefix].
    change (Ascii.eqb ?a ?a) with true. cbv iota.
    rewrite (match_field_line title meta_line Ht Hnt Hst). reflexivity. }
  assert (Hmeta : search_lines "META_DESCRIPTION:" match_field true meta_line
                  = Some meta_description).
  { unfold meta_line. norm_append. cbn [search_lines strip_prefix].
    change (Ascii.eqb ?a ?a) with true. cbv iota.
    rewrite (match_field_line meta_description body_line Hm Hnm Hsm). reflexivity. }
  assert (Hbody : search_lines "BODY:" match_body true body_line = Some body).
  { unfold body_line. norm_append. cbn [search_lines strip_prefix].
    change (Ascii.eqb ?a ?a) with true. cbv iota.
    rewrite (match_body_line body Hsb). reflexivity. }
  assert (Hline1 : mem_char newline ("TITLE: " +:+ title) = false).
  { rewrite mem_char_append, Hnt. reflexivity. }
  assert (Hline2 : mem_char newline ("META_DESCRIPTION: " +:+ meta_description) = false).
  { rewrite mem_char_append, Hnm. reflexivity. }
  rewrite Htitle, Hst, Hqt.
  rewrite <- (append_assoc "TITLE: " title (String newline meta_line)).
  rewrite (search_lines_skip "META_DESCRIPTION:" _ _ _ Hline1) by reflexivity.
  rewrite (search_lines_skip "BODY:" _ _ _ Hline1) by reflexivity.
  rewrite Hmeta, Hsm, Hqm.
  unfold meta_line.
  rewrite <- (append_assoc "META_DESCRIPTION: " meta_description (String newline body_line)).
  rewrite (search_lines_skip "BODY:" _ _ _ Hline2) by reflexivity.
  rewrite Hbody, Hsb. reflexivity.
Qed.

Lemma parse_documented_response_witness :
  parse_claude_response
    (documented_response "NBA Best Bets" "Top picks for tonight"
       ("# NBA" +:+ String newline "Body text"))
  = ("NBA Best Bets", "Top picks for tonight",
     "# NBA" +:+ String newline "Body text").
Proof.
  apply parse_documented_response; first [discriminate | reflexivity].
Defined.


(** *** What every parse returns *)

Lemma search_lines_attempt (tag : string) (attempt : string -> option string)
    (bol : bool) (s g : string) :
  search_lines tag attempt bol s = Some g -> exists r, attempt r = Some g.
Proof.
  revert bol. induction s as [ | c s IH]; intros bol; cbn [search_lines].
  - destruct bol; [ | discriminate].
    destruct (strip_prefix tag "") as [r | ]; [ | discriminate].
    destruct (attempt r) eqn:Hr; [ | discriminate]. intros [= <-]. eauto.
  - destruct bol.
    + destruct (strip_prefix tag (String c s)) as [r | ]; [ | apply IH].
      destruct (attempt r) eqn:Hr; [intros [= <-]; eauto | apply IH].
    + apply IH.
Qed.

Lemma first_line_one_line (s : string) :
  all_chars not_newline (first_line s) = true.
Proof.
  induction s as [ | c s IH]; cbn [first_line]; [reflexivity | ].
  destruct (Ascii.eqb c newline) eqn:Hc; [reflexivity | ].
  cbn [all_chars]. unfold not_newline at 1. rewrite Ascii.eqb_sym, Hc. exact IH.
Qed.

Lemma last_non_newline_is (s : string) (c : ascii) :
  last_non_newline s = Some c -> not_newline c = true.
Proof.
  induction s as [ | d s IH]; cbn [last_non_newline]; [discriminate | ].
  destruct (last_non_newline s) as [e | ]; [intros [= <-]; now apply IH | ].
  destruct (Ascii.eqb d newline) eqn:Hd; [discriminate | ].
  intros [= <-]. unfold not_newline. now rewrite Ascii.eqb_sym, Hd.
Qed.

Lemma match_field_one_line (r g : string) :
  match_field r = Some g -> all_chars not_newline g = true.
Proof.
  unfold match_field. destruct (lstrip_by isspace r) as [ | c rest].
  - destruct (last_non_newline r) as [c | ] eqn:Hc; [ | discriminate].
    intros [= <-]. cbn [all_chars]. now rewrite (last_non_newline_is r c Hc).
  - intros [= <-]. apply (first_line_one_line (String c rest)).
Qed.

Lemma parsed_field_one_line (tag text : string) :
  mem_char newline
    match search_lines tag match_field true text with
    | Some g => strip_char quote (strip g)
    | None => ""
    end = false.
Proof.
  destruct (search_lines tag match_field true text) as [g | ] eqn:Hs;
    [ | reflexivity].
  apply search_lines_attempt in Hs as (r & Hr).
  apply (all_chars_not_mem not_newline); [reflexivity | ].
  unfold strip_char. apply all_chars_rstrip_by, all_chars_lstrip_by, all_chars_strip.
  exact (match_field_one_line r g Hr).
Qed.

(** X14: whatever the response, the parsed title and meta description hold
    no newline, and the parsed body has no leading or trailing whitespace;
    a response without the three tags parses to three empty strings. *)
Theorem parsed_fields_shape (text : string) :
  mem_char newline (parse_claude_response text).1.1 = false
  /\ mem_char newline (parse_claude_response text).1.2 = false
  /\ strip (parse_claude_response text).2 = (parse_claude_response text).2
  /\ parse_claude_response "" = ("", "", "").
Proof.
  unfold parse_claude_response. cbn [fst snd].
  split; [apply parsed_field_one_line | ].
  split; [apply parsed_field_one_line | ].
  split; [ | reflexivity].
  destruct (search_lines "BODY:" match_body true text); [apply strip_idem | reflexivity].
Qed.

End EngineFacts.

(** ** The keywords that [rewrite] passes to [validate] *)

Module RewriteFacts.
Import Py Seo Engine SeoFacts SeoMore.
Local Open Scope list_scope.

(** X15: [rewrite] hands [validate] the given keywords merged with the two
    default keywords, in some order and without repetitions.  That list is
    never empty, and the keyword check stays silent on it exactly when the
    body mentions, in any case, [novig], [prediction markets] and every
    given keyword. *)
Theorem rewrite_keywords_need_defaults (body : string)
    (keywords : option (list string)) (merged : list string) (t : tally) :
  merged_keywords keywords merged ->
  merged <> []
  /\ exists t',
       check_keywords body (Some merged) t = Ok t'
       /\ (seen_issues t' = seen_issues t
           <-> contains "novig" (lower body) = true
               /\ contains "prediction markets" (lower body) = true
               /\ Forall (fun kw => contains (lower kw) (lower body) = true)
                    (default [] keywords)).
Proof.
  intros [_ Hmem].
  split.
  { intros ->. specialize (Hmem "Novig"). rewrite elem_of_nil in Hmem.
    apply Hmem. apply elem_of_app. right. left. }
  destruct (check_keywords_silent body merged t) as (t' & Hc & Hiff & _).
  exists t'. split; [exact Hc | ]. rewrite Hiff, !Forall_forall.
  split.
  - intros Hall. repeat split.
    + apply (Hall "Novig"), Hmem, elem_of_app. right. left.
    + apply (Hall "prediction markets"), Hmem, elem_of_app. right. right. left.
    + intros kw Hkw. apply Hall, Hmem, elem_of_app. left. exact Hkw.
  - intros (Hn & Hp & Hgiven) kw Hkw.
    apply Hmem, elem_of_app in Hkw as [Hkw | Hkw]; [apply Hgiven, Hkw | ].
    unfold DEFAULT_KEYWORDS in Hkw.
    rewrite !elem_of_cons, elem_of_nil in Hkw.
    destruct Hkw as [-> | [-> | [ ]]]; assumption.
Qed.

Lemma rewrite_keywords_need_defaults_witness :
  ["prediction markets"; "NBA"; "Novig"] <> []
  /\ exists t',
       check_keywords "Novig prices NBA games" (Some ["prediction markets"; "NBA"; "Novig"]) start
       = Ok t'
       /\ (seen_issues t' = seen_issues start
           <-> contains "novig" (lower "Novig prices NBA games") = true
               /\ contains "prediction markets" (lower "Novig prices NBA games") = true
               /\ Forall (fun kw => contains (lower kw) (lower "Novig prices NBA games") = true)
                    (default [] (Some ["NBA"; "Novig"]))).
Proof.
  apply (rewrite_keywords_need_defaults "Novig prices NBA games"
           (Some ["NBA"; "Novig"]) ["prediction markets"; "NBA"; "Novig"] start).
  split.
  - apply (bool_decide_unpack (NoDup ["prediction markets"; "NBA"; "Novig"])).
    vm_compute. exact I.
  - intros kw. unfold DEFAULT_KEYWORDS. cbn.
    rewrite !elem_of_cons, !elem_of_nil. tauto.
Defined.

End RewriteFacts.
